(** * wechat_robot: the callback that files group messages into CSV

    A shallow embedding of [callback_group.py]: the message and
    configuration records, the CSV row writer used by
    [FileManager.write_to_csv], title extraction from the XML payload
    ([parse_xml_content]), path derivation and the persistence pipeline
    ([save_message_to_csv], [msg_cb]) over an explicit world (file
    system, clock, log, standard output). *)

From Stdlib Require Import ZArith String Ascii List Bool Lia DecimalString.
From stdpp Require Import gmap strings list.

Open Scope Z_scope.

#[local] Arguments String.append !s1 s2 : simpl nomatch.

(** ** Strings *)

Module Str.

(** [contains needle s]: Python's [needle in s] on strings. *)
Fixpoint contains (needle s : string) : bool :=
  String.prefix needle s
  || match s with
     | "" => false
     | String _ t => contains needle t
     end.

(** Concatenation of a list of strings. *)
Fixpoint concat (l : list string) : string :=
  match l with
  | [] => ""
  | s :: t => s +:+ concat t
  end.

End Str.

(** ** The [csv] dialect used by [csv.writer(file)]

    [FileManager.write_to_csv] builds its writer with no dialect
    arguments, so the rows are produced by the [excel] dialect:
    delimiter [,], quote character (code 34), [doublequote] on,
    [QUOTE_MINIMAL], no escape character, line terminator CR LF. *)

Module Csv.

Definition delimiter : ascii := ",".
Definition quotechar : ascii := Eval cbv in ascii_of_nat 34.
Definition CR : ascii := Eval cbv in ascii_of_nat 13.
Definition LF : ascii := Eval cbv in ascii_of_nat 10.
Definition lineterminator : string := String CR (String LF "").

(** The characters that make [join_append_data] raise the [quoted]
    flag under [QUOTE_MINIMAL]: the delimiter, the quote character and
    every character of the line terminator. *)
Definition special (c : ascii) : bool :=
  (c =? delimiter)%char || (c =? quotechar)%char
  || (c =? CR)%char || (c =? LF)%char.

(** First pass of [join_append_data] ([copy_phase = 0]): does the
    field need quotes. *)
Fixpoint needs_quotes (field : string) : bool :=
  match field with
  | "" => false
  | String c t => special c || needs_quotes t
  end.

(** Second pass: copy the field, doubling each quote character. *)
Fixpoint copy_field (field : string) : string :=
  match field with
  | "" => ""
  | String c t =>
      if (c =? quotechar)%char then String c (String c (copy_field t))
      else String c (copy_field t)
  end.

(** [join_append]: the text one field contributes to the record,
    without the separating delimiter. *)
Definition join_append (field : string) : string :=
  if needs_quotes field
  then String quotechar (copy_field field +:+ String quotechar "")
  else field.

(** Fields after the first are preceded by the delimiter. *)
Fixpoint join_rest (fields : list string) : string :=
  match fields with
  | [] => ""
  | f :: fs => String delimiter (join_append f +:+ join_rest fs)
  end.

Definition join_row (fields : list string) : string :=
  match fields with
  | [] => ""
  | f :: fs => join_append f +:+ join_rest fs
  end.

(** [writerow]: a record made of a single empty field is written as a
    pair of quotes ([num_fields > 0 && rec_len == 0]), then the line
    terminator is added. *)
Definition writerow (fields : list string) : string :=
  let rec := join_row fields in
  let rec :=
    if (0 <? length fields)%nat && (String.length rec =? 0)%nat
    then String quotechar (String quotechar "")
    else rec in
  rec +:+ lineterminator.

(** *** Reading the text back

    The reading side is [csv.reader] over a file opened with
    [newline=''], same dialect.  The file iterator hands the reader
    one physical line at a time (ended by LF, by CR LF, or by a CR
    that no LF follows, terminator kept); the reader feeds every
    character of the line to [parse_process_char] and then an
    end-of-line marker.  [events] is that stream.  The limit
    [csv.field_size_limit] of the reading side is a setting, not a
    quoting rule, and is left out. *)

Inductive event := Chr (c : ascii) | EOL.

Definition starts_with_LF (s : string) : bool :=
  match s with
  | String c _ => (c =? LF)%char
  | "" => false
  end.

Definition is_nil (s : string) : bool :=
  match s with "" => true | _ => false end.

Definition ends_line (c : ascii) (rest : string) : bool :=
  (c =? LF)%char
  || ((c =? CR)%char && negb (starts_with_LF rest))
  || is_nil rest.

Fixpoint events (s : string) : list event :=
  match s with
  | "" => []
  | String c t =>
      Chr c :: (if ends_line c t then EOL :: events t else events t)
  end.

(** The states of the reader that are reachable without an escape
    character. *)
Inductive ParserState :=
  | START_RECORD | START_FIELD | IN_FIELD
  | IN_QUOTED_FIELD | QUOTE_IN_QUOTED_FIELD | EAT_CRNL.

Record Reader := mkReader {
  state : ParserState;
  fields : list string;
  field : string
}.

Definition parse_reset : Reader := mkReader START_RECORD [] "".

Definition parse_save_field (r : Reader) (st : ParserState) : Reader :=
  mkReader st (fields r ++ [field r]) "".

Definition parse_add_char (r : Reader) (c : ascii) (st : ParserState) : Reader :=
  mkReader st (fields r) (field r +:+ String c "").

Definition is_newline (c : ascii) : bool := (c =? LF)%char || (c =? CR)%char.

Definition start_field (r : Reader) (e : event) : Reader :=
  match e with
  | EOL => parse_save_field r START_RECORD
  | Chr c =>
      if is_newline c then parse_save_field r EAT_CRNL
      else if (c =? quotechar)%char then mkReader IN_QUOTED_FIELD (fields r) (field r)
      else if (c =? delimiter)%char then parse_save_field r START_FIELD
      else parse_add_char r c IN_FIELD
  end.

(** [parse_process_char]; [None] is [csv.Error]. *)
Definition parse_process_char (r : Reader) (e : event) : option Reader :=
  match state r with
  | START_RECORD =>
      match e with
      | EOL => Some r
      | Chr c =>
          if is_newline c then Some (mkReader EAT_CRNL (fields r) (field r))
          else Some (start_field r e)
      end
  | START_FIELD => Some (start_field r e)
  | IN_FIELD =>
      match e with
      | EOL => Some (parse_save_field r START_RECORD)
      | Chr c =>
          if is_newline c then Some (parse_save_field r EAT_CRNL)
          else if (c =? delimiter)%char then Some (parse_save_field r START_FIELD)
          else Some (parse_add_char r c IN_FIELD)
      end
  | IN_QUOTED_FIELD =>
      match e with
      | EOL => Some r
      | Chr c =>
          if (c =? quotechar)%char
          then Some (mkReader QUOTE_IN_QUOTED_FIELD (fields r) (field r))
          else Some (parse_add_char r c IN_QUOTED_FIELD)
      end
  | QUOTE_IN_QUOTED_FIELD =>
      match e with
      | EOL => Some (parse_save_field r START_RECORD)
      | Chr c =>
          if (c =? quotechar)%char then Some (parse_add_char r c IN_QUOTED_FIELD)
          else if (c =? delimiter)%char then Some (parse_save_field r START_FIELD)
          else if is_newline c then Some (parse_save_field r EAT_CRNL)
          else Some (parse_add_char r c IN_FIELD)
      end
  | EAT_CRNL =>
      match e with
      | EOL => Some (mkReader START_RECORD (fields r) (field r))
      | Chr c => if is_newline c then Some r else None
      end
  end.

Definition is_start_record (st : ParserState) : bool :=
  match st with START_RECORD => true | _ => false end.

Definition is_in_quoted (st : ParserState) : bool :=
  match st with IN_QUOTED_FIELD => true | _ => false end.

(** The loop of [Reader_iternext], run to the end of the input: a row
    is yielded each time the end-of-line marker leaves the reader in
    [START_RECORD]; at the end of the input a pending field is saved
    and yielded. *)
Fixpoint read_rows (r : Reader) (evs : list event) : option (list (list string)) :=
  match evs with
  | [] =>
      if negb (is_nil (field r)) || is_in_quoted (state r)
      then Some [fields r ++ [field r]]
      else Some []
  | e :: evs' =>
      match parse_process_char r e with
      | None => None
      | Some r' =>
          match e with
          | EOL =>
              if is_start_record (state r')
              then option_map (cons (fields r')) (read_rows parse_reset evs')
              else read_rows r' evs'
          | Chr _ => read_rows r' evs'
          end
      end
  end.

Definition reader (text : string) : option (list (list string)) :=
  read_rows parse_reset (events text).

(** The states in which a delimiter or a line end closes a field, and
    the states in which a field may begin. *)
Definition field_done (st : ParserState) : bool :=
  match st with
  | START_FIELD | IN_FIELD | QUOTE_IN_QUOTED_FIELD => true
  | _ => false
  end.

Definition field_start (st : ParserState) : bool :=
  match st with
  | START_RECORD | START_FIELD => true
  | _ => false
  end.

End Csv.

(** ** Exceptions and results

    The exception classes the handlers of the program tell apart:
    [FileNotFoundError], [csv.Error], [ET.ParseError]; every other
    subclass of [Exception] (permission errors, a full disk, an
    encoding error, [AttributeError], ...) is [OtherException].
    [exn_str] is [str(e)]. *)

Inductive exn_class :=
  | FileNotFoundError | CsvError | ParseError | OtherException.

Record exn := Exn { exn_cls : exn_class; exn_str : string }.

Inductive Result (A : Type) :=
  | Ok (a : A)
  | Raise (e : exn).
Arguments Ok {A} a.
Arguments Raise {A} e.

(** ** [Msg] and [Config] *)

Record Msg := {
  id : Z;
  ts : Z;
  sign : string;
  type : Z;
  xml : string;
  sender : string;
  roomid : string;
  content : string;
  thumb : string;
  extra : string;
  is_at : bool;
  is_self : bool;
  is_group : bool
}.

Record Config := {
  accepted_types : gset Z;
  chatroom_id_to_name : gmap string string;
  log_level : string;
  host : string;
  port : Z;
  file_encoding : string;
  file_write_mode : string;
  date_format : string
}.

(** The configuration [Config.__init__] builds from an empty JSON
    object: every option at its default. *)
Definition default_config : Config := {|
  accepted_types := ∅;
  chatroom_id_to_name := ∅;
  log_level := "INFO";
  host := "127.0.0.1";
  port := 8001;
  file_encoding := "utf-8-sig";
  file_write_mode := "a";
  date_format := "%Y%m%d%H"
|}.

Definition set_date_format (c : Config) (fmt : string) : Config := {|
  accepted_types := accepted_types c;
  chatroom_id_to_name := chatroom_id_to_name c;
  log_level := log_level c;
  host := host c;
  port := port c;
  file_encoding := file_encoding c;
  file_write_mode := file_write_mode c;
  date_format := fmt
|}.

(** [str] of a Python [int]. *)
Definition str_int (z : Z) : string := NilZero.string_of_int (Z.to_int z).

(** ** [datetime] and [strftime] *)

Record datetime := {
  year : Z;
  month : Z;
  day : Z;
  hour : Z;
  minute : Z;
  second : Z;
  microsecond : Z
}.

(** The ranges the fields of a [datetime] object lie in. *)
Definition valid_datetime (t : datetime) : Prop :=
  1 <= year t <= 9999 /\ 1 <= month t <= 12 /\ 1 <= day t <= 31
  /\ 0 <= hour t <= 23 /\ 0 <= minute t <= 59 /\ 0 <= second t <= 59
  /\ 0 <= microsecond t <= 999999.

(** What [datetime.now()] can return: the system clock counts from
    the epoch. *)
Definition wall_clock (t : datetime) : Prop :=
  valid_datetime t /\ 1970 <= year t.

Fixpoint zeros (n : nat) : string :=
  match n with
  | O => ""
  | S n' => String "0" (zeros n')
  end.

(** A number in decimal, padded with zeros on the left to [width]
    digits (the [%0Nd] of the C library). *)
Definition decimal (n : Z) : string :=
  NilZero.string_of_uint (N.to_uint (Z.to_N n)).

Definition pad0 (width : nat) (n : Z) : string :=
  let s := decimal n in
  zeros (width - String.length s) +:+ s.

(** The directives of [strftime] the program and [str(datetime)] rely
    on.  [%Y] is the year in decimal as the C library prints it, with
    no padding (four digits from year 1000 on); [str(datetime)] pads
    the year itself.  Any other character after [%] is copied. *)
Definition directive (d : ascii) (t : datetime) : string :=
  if (d =? "Y")%char then pad0 1 (year t)
  else if (d =? "m")%char then pad0 2 (month t)
  else if (d =? "d")%char then pad0 2 (day t)
  else if (d =? "H")%char then pad0 2 (hour t)
  else if (d =? "M")%char then pad0 2 (minute t)
  else if (d =? "S")%char then pad0 2 (second t)
  else if (d =? "f")%char then pad0 6 (microsecond t)
  else if (d =? "%")%char then "%"
  else String "%" (String d "").

Fixpoint strftime (fmt : string) (t : datetime) : string :=
  match fmt with
  | "" => ""
  | String c rest =>
      if (c =? "%")%char then
        match rest with
        | String d rest' => directive d t +:+ strftime rest' t
        | "" => "%"
        end
      else String c (strftime rest t)
  end.

(** [str(datetime)]: ISO format with a space, microseconds only when
    they are not zero. *)
Definition str_datetime (t : datetime) : string :=
  pad0 4 (year t) +:+ strftime "-%m-%d %H:%M:%S" t
  +:+ (if microsecond t =? 0 then "" else strftime ".%f" t).

(** ** Element trees

    What [xml.etree.ElementTree] builds: a tag, the text before the
    first child ([None] when there is none), the text after the end
    tag, and the children. *)

Module ET.

#[warnings="-register-all"] Inductive Element :=
  Elem (tag : string) (text : option string) (tail : option string)
       (children : list Element).

Definition tag (e : Element) : string :=
  match e with Elem t _ _ _ => t end.
Definition text (e : Element) : option string :=
  match e with Elem _ x _ _ => x end.
Definition tail (e : Element) : option string :=
  match e with Elem _ _ x _ => x end.
Definition children (e : Element) : list Element :=
  match e with Elem _ _ _ cs => cs end.

(** [Element.iter(tag)]: the element itself when its tag matches, then
    the matches of each child, in document order. *)
Fixpoint iter (name : string) (e : Element) : list Element :=
  match e with
  | Elem t _ _ cs =>
      (if String.eqb t name then [e] else [])
      ++ (fix go (l : list Element) : list Element :=
            match l with
            | [] => []
            | c :: l' => iter name c ++ go l'
            end) cs
  end.

(** [root.find('.//' + name)]: the selector of [//] runs
    [root.iter(name)] and skips [root] itself, and [find] takes the
    first result; so only elements strictly below the root count. *)
Definition find_descendant (name : string) (root : Element) : option Element :=
  head (flat_map (iter name) (children root)).

(** Every element of the tree in document order, the element itself
    first. *)
Fixpoint preorder (e : Element) : list Element :=
  match e with
  | Elem _ _ _ cs =>
      e :: (fix go (l : list Element) : list Element :=
              match l with
              | [] => []
              | c :: l' => preorder c ++ go l'
              end) cs
  end.

(** The elements strictly below [root], in document order. *)
Definition descendants (root : Element) : list Element :=
  flat_map preorder (children root).

(** The reading of the path in words: the first element named [name]
    among the descendants. *)
Definition first_named (name : string) (root : Element) : option Element :=
  head (filter (fun e => tag e = name) (descendants root)).

End ET.

(** ** A reference parser for plain documents

    [ET.fromstring] is the expat parser, outside the program.  The
    pipeline below takes the parser as a parameter; this module gives
    one for the documents made of start tags, end tags, empty-element
    tags (names over ASCII letters, digits, [_], [-], [.]; blanks
    allowed before the closing bracket) and character data, which is
    enough to run the program on sample payloads.  Its answer is
    three-valued: a tree, not well-formed, or [Unsupported] when the
    input uses something else (attributes, references, comments,
    CDATA sections, processing instructions, declarations, prefixed
    or non-ASCII names, a closing square bracket in text); nothing is
    said about expat on unsupported input. *)

Module XmlLite.
Import ET.

Inductive outcome (A : Type) :=
  | Done (a : A)
  | NotWellFormed
  | Unsupported.
Arguments Done {A} a.
Arguments NotWellFormed {A}.
Arguments Unsupported {A}.

Definition omap {A B} (f : A -> B) (o : outcome A) : outcome B :=
  match o with
  | Done a => Done (f a)
  | NotWellFormed => NotWellFormed
  | Unsupported => Unsupported
  end.

Inductive token :=
  | TStart (name : string)
  | TEnd (name : string)
  | TEmpty (name : string)
  | TText (s : string).

Definition between (lo hi : nat) (c : ascii) : bool :=
  (lo <=? nat_of_ascii c)%nat && (nat_of_ascii c <=? hi)%nat.

Definition is_space (c : ascii) : bool :=
  let n := nat_of_ascii c in
  (n =? 32)%nat || (n =? 9)%nat || (n =? 10)%nat || (n =? 13)%nat.

Definition name_start (c : ascii) : bool :=
  between 65 90 c || between 97 122 c || (c =? "_")%char.

Definition name_char (c : ascii) : bool :=
  name_start c || between 48 57 c || (c =? "-")%char || (c =? ".")%char.

Fixpoint drop_spaces (l : list ascii) : list ascii :=
  match l with
  | c :: l' => if is_space c then drop_spaces l' else l
  | [] => []
  end.

(** [Name S?], given reversed. *)
Definition name_of_rev (r : list ascii) : outcome string :=
  let n := rev (drop_spaces r) in
  if forallb name_char n then
    match n with
    | c :: _ => if name_start c then Done (string_of_list_ascii n) else NotWellFormed
    | [] => NotWellFormed
    end
  else Unsupported.

(** What stands between [<] and [>]. *)
Definition classify (body : string) : outcome token :=
  match list_ascii_of_string body with
  | "/"%char :: l => omap TEnd (name_of_rev (rev l))
  | l =>
      match rev l with
      | "/"%char :: r => omap TEmpty (name_of_rev r)
      | r => omap TStart (name_of_rev r)
      end
  end.

Definition text_token (acc : string) : list token :=
  match acc with
  | "" => []
  | _ => [TText acc]
  end.

Definition markup_start (s : string) : bool :=
  match s with
  | String c _ => (c =? "!")%char || (c =? "?")%char
  | "" => false
  end.

Definition control (c : ascii) : bool :=
  (nat_of_ascii c <? 32)%nat && negb (is_space c).

Fixpoint lex (in_tag : bool) (acc : string) (s : string) : outcome (list token) :=
  match s with
  | "" => if in_tag then NotWellFormed else Done (text_token acc)
  | String c t =>
      if in_tag then
        if (c =? ">")%char then
          match classify acc with
          | Done tk => omap (cons tk) (lex false "" t)
          | NotWellFormed => NotWellFormed
          | Unsupported => Unsupported
          end
        else if (c =? "<")%char then NotWellFormed
        else lex true (acc +:+ String c "") t
      else
        if (c =? "<")%char then
          if markup_start t then Unsupported
          else omap (app (text_token acc)) (lex true "" t)
        else if (c =? "&")%char || (c =? "]")%char then Unsupported
        else if control c then NotWellFormed
        else lex false (acc +:+ String c "") t
  end.

(** An open element: its tag, its text so far, its children so far
    (latest first). *)
Record frame := Frame {
  f_tag : string;
  f_text : option string;
  f_children : list Element
}.

Definition add_data (o : option string) (s : string) : option string :=
  match o with
  | None => Some s
  | Some t => Some (t +:+ s)
  end.

(** Character data goes to the text of the open element, or to the
    tail of its latest child. *)
Definition add_text (s : string) (f : frame) : frame :=
  match f_children f with
  | [] => Frame (f_tag f) (add_data (f_text f) s) []
  | Elem t x tl cs :: rest =>
      Frame (f_tag f) (f_text f) (Elem t x (add_data tl s) cs :: rest)
  end.

Definition add_child (e : Element) (f : frame) : frame :=
  Frame (f_tag f) (f_text f) (e :: f_children f).

Definition all_space (s : string) : bool :=
  forallb is_space (list_ascii_of_string s).

(** Closing an element hands it to its parent, or makes it the root. *)
Definition close (e : Element) (stack : list frame) (root : option Element)
  : list frame * option Element :=
  match stack with
  | [] => ([], Some e)
  | p :: st => (add_child e p :: st, root)
  end.

Fixpoint build (stack : list frame) (root : option Element) (toks : list token)
  : outcome Element :=
  match toks with
  | [] =>
      match stack, root with
      | [], Some e => Done e
      | _, _ => NotWellFormed
      end
  | TText s :: rest =>
      match stack with
      | [] => if all_space s then build [] root rest else NotWellFormed
      | f :: st => build (add_text s f :: st) root rest
      end
  | TStart n :: rest =>
      match stack, root with
      | [], Some _ => NotWellFormed
      | _, _ => build (Frame n None [] :: stack) root rest
      end
  | TEmpty n :: rest =>
      match stack, root with
      | [], Some _ => NotWellFormed
      | _, _ =>
          let '(stack', root') := close (Elem n None None []) stack root in
          build stack' root' rest
      end
  | TEnd n :: rest =>
      match stack with
      | [] => NotWellFormed
      | f :: st =>
          if String.eqb (f_tag f) n then
            let e := Elem n (f_text f) None (rev (f_children f)) in
            let '(stack', root') := close e st root in
            build stack' root' rest
          else NotWellFormed
      end
  end.

Definition parse (s : string) : outcome Element :=
  match lex false "" s with
  | Done toks => build [] None toks
  | NotWellFormed => NotWellFormed
  | Unsupported => Unsupported
  end.

(** The parser in the shape the pipeline expects: a tree, or the
    exception raised.  Unsupported input raises an exception of its
    own, which is not [ET.ParseError]. *)
Definition fromstring (s : string) : exn + Element :=
  match parse s with
  | Done e => inr e
  | NotWellFormed => inl (Exn ParseError "not well-formed")
  | Unsupported => inl (Exn OtherException "outside the reference parser")
  end.

End XmlLite.

(** ** The world the program runs in

    Files are kept as the text a reader with the same encoding gets
    back, plus whether a byte-order mark stands in front of it; the
    size in bytes is exact for the UTF-8 encodings (a string here is
    its UTF-8 bytes).  Directories are kept under the path with a
    trailing slash.  [clock] is the sequence of readings of the system
    clock, [ticks] how many were taken.  Whether an operation on the
    file system, or a write to the standard output, fails for a reason
    outside the program (permissions, a full disk, a directory removed
    meanwhile, an encoding error, a closed pipe) is decided by
    [faults], indexed by the count [ops] of operations attempted so
    far.  [log_records] are the calls to [logging.log], [stdout] the
    lines printed, [xml_seen] the payloads handed to the XML parser. *)

Record File := { bom : bool; text : string }.

Definition empty_file : File := {| bom := false; text := "" |}.

Definition size (f : File) : nat :=
  ((if bom f then 3 else 0) + String.length (text f))%nat.

Record World := {
  dirs : gset string;
  files : gmap string File;
  clock : nat -> datetime;
  ticks : nat;
  faults : nat -> option exn;
  ops : nat;
  log_records : list (Z * string);
  stdout : list string;
  xml_seen : list string
}.

Definition set_dirs (w : World) (d : gset string) : World :=
  {| dirs := d; files := files w; clock := clock w; ticks := ticks w;
     faults := faults w; ops := ops w; log_records := log_records w;
     stdout := stdout w; xml_seen := xml_seen w |}.

Definition set_files (w : World) (f : gmap string File) : World :=
  {| dirs := dirs w; files := f; clock := clock w; ticks := ticks w;
     faults := faults w; ops := ops w; log_records := log_records w;
     stdout := stdout w; xml_seen := xml_seen w |}.

Definition set_ticks (w : World) (n : nat) : World :=
  {| dirs := dirs w; files := files w; clock := clock w; ticks := n;
     faults := faults w; ops := ops w; log_records := log_records w;
     stdout := stdout w; xml_seen := xml_seen w |}.

Definition set_ops (w : World) (n : nat) : World :=
  {| dirs := dirs w; files := files w; clock := clock w; ticks := ticks w;
     faults := faults w; ops := n; log_records := log_records w;
     stdout := stdout w; xml_seen := xml_seen w |}.

Definition set_log_records (w : World) (l : list (Z * string)) : World :=
  {| dirs := dirs w; files := files w; clock := clock w; ticks := ticks w;
     faults := faults w; ops := ops w; log_records := l;
     stdout := stdout w; xml_seen := xml_seen w |}.

Definition set_stdout (w : World) (l : list string) : World :=
  {| dirs := dirs w; files := files w; clock := clock w; ticks := ticks w;
     faults := faults w; ops := ops w; log_records := log_records w;
     stdout := l; xml_seen := xml_seen w |}.

Definition set_xml_seen (w : World) (l : list string) : World :=
  {| dirs := dirs w; files := files w; clock := clock w; ticks := ticks w;
     faults := faults w; ops := ops w; log_records := log_records w;
     stdout := stdout w; xml_seen := l |}.

(** ** Computations that read and change the world, or raise *)

Definition IO (A : Type) : Type := World -> Result A * World.

#[global] Instance IO_ret : MRet IO := fun A a w => (Ok a, w).

#[global] Instance IO_bind : MBind IO := fun A B k m w =>
  match m w with
  | (Ok a, w') => k a w'
  | (Raise e, w') => (Raise e, w')
  end.

Definition raise {A} (e : exn) : IO A := fun w => (Raise e, w).

(** [try: body except Exception as e: handler e]. *)
Definition try_except {A} (body : IO A) (handler : exn -> IO A) : IO A :=
  fun w =>
    match body w with
    | (Ok a, w') => (Ok a, w')
    | (Raise e, w') => handler e w'
    end.

(** *** The operating system *)

Definition datetime_now : IO datetime :=
  fun w => (Ok (clock w (ticks w)), set_ticks w (S (ticks w))).

(** One operation on the file system or the standard output is
    attempted. *)
Definition attempt : IO unit :=
  fun w =>
    match faults w (ops w) with
    | Some e => (Raise e, set_ops w (S (ops w)))
    | None => (Ok tt, set_ops w (S (ops w)))
    end.

Definition os_path_exists (path : string) : IO bool :=
  fun w =>
    (Ok (bool_decide (path ∈ dirs w) || bool_decide (is_Some (files w !! path))), w).

(** The prefixes of a path that end in a slash: the directory itself
    (for a path with a trailing slash) and the ones above it. *)
Fixpoint dir_prefixes (acc path : string) : list string :=
  match path with
  | "" => []
  | String c t =>
      let acc' := acc +:+ String c "" in
      (if (c =? "/")%char then [acc'] else []) ++ dir_prefixes acc' t
  end.

(** [os.makedirs(path)]: makes the directory and the missing ones
    above it; raises when the directory is there already. *)
Definition mkdirs (path : string) : IO unit :=
  fun w =>
    if bool_decide (path ∈ dirs w)
    then (Raise (Exn OtherException ("[Errno 17] File exists: " +:+ path)), w)
    else (Ok tt, set_dirs w (dirs w ∪ {[ path ]} ∪ list_to_set (dir_prefixes "" path))).

Definition os_makedirs (path : string) : IO unit :=
  attempt;; mkdirs path.

(** An open text file. *)
Record TextFile := {
  f_name : string;
  f_writable : bool;
  f_encoding : string
}.

(** [aiofiles.open(file_name, mode, newline='', encoding=encoding)] for
    the four plain modes; the update modes (with [+]) are not
    modelled and raise here, like a mode that does not exist. *)
Definition open_file (file_name mode encoding : string) : IO TextFile :=
  fun w =>
    let existing := files w !! file_name in
    let handle := fun writable =>
      {| f_name := file_name; f_writable := writable; f_encoding := encoding |} in
    if String.eqb mode "a" then
      (Ok (handle true),
       set_files w (<[file_name := default empty_file existing]> (files w)))
    else if String.eqb mode "w" then
      (Ok (handle true), set_files w (<[file_name := empty_file]> (files w)))
    else if String.eqb mode "x" then
      match existing with
      | Some _ =>
          (Raise (Exn OtherException ("[Errno 17] File exists: " +:+ file_name)), w)
      | None =>
          (Ok (handle true), set_files w (<[file_name := empty_file]> (files w)))
      end
    else if String.eqb mode "r" then
      match existing with
      | Some _ => (Ok (handle false), w)
      | None =>
          (Raise (Exn FileNotFoundError
                    ("[Errno 2] No such file or directory: " +:+ file_name)), w)
      end
    else (Raise (Exn OtherException ("invalid mode: " +:+ mode)), w).

Definition open_ (file_name mode encoding : string) : IO TextFile :=
  attempt;; open_file file_name mode encoding.

(** [file.tell()] of a handle that was only written through: the end
    of the file when it is writable, the start when it is read-only. *)
Definition tell (file : TextFile) : IO nat :=
  fun w =>
    (Ok (if f_writable file
         then size (default empty_file (files w !! f_name file))
         else 0%nat), w).

Definition writes_bom (encoding : string) : bool :=
  String.eqb encoding "utf-8-sig".

(** [file.write(s)]: the text goes to the end of the file; the codec
    [utf-8-sig] puts its mark in front of what is written at offset
    zero. *)
Definition append_text (file : TextFile) (s : string) : IO unit :=
  fun w =>
    let f := default empty_file (files w !! f_name file) in
    let f' := {| bom := bom f || (writes_bom (f_encoding file) && (size f =? 0)%nat);
                 text := text f +:+ s |} in
    (Ok tt, set_files w (<[f_name file := f']> (files w))).

Definition write (file : TextFile) (s : string) : IO unit :=
  if f_writable file then attempt;; append_text file s
  else raise (Exn OtherException "not writable").

(** [csv.writer(file).writerow(row)]: one call of [file.write] with
    the whole record. *)
Definition writer_writerow (file : TextFile) (row : list string) : IO unit :=
  write file (Csv.writerow row).

(** *** [logging] and [print] *)

Definition upper_char (c : ascii) : ascii :=
  let n := nat_of_ascii c in
  if (97 <=? n)%nat && (n <=? 122)%nat then ascii_of_nat (n - 32) else c.

(** The characters outside ASCII whose upper-case form is made of
    ASCII letters, by the bytes of their UTF-8 encoding: U+00DF (sharp
    s), U+0131 (dotless i), U+017F (long s) on two bytes, the
    ligatures U+FB00 to U+FB06 on three. *)
Definition upper_two_bytes (a b : ascii) : option string :=
  match nat_of_ascii a, nat_of_ascii b with
  | 195, 159 => Some "SS"
  | 196, 177 => Some "I"
  | 197, 191 => Some "S"
  | _, _ => None
  end%nat.

Definition upper_three_bytes (a b c : ascii) : option string :=
  match nat_of_ascii a, nat_of_ascii b, nat_of_ascii c with
  | 239, 172, 128 => Some "FF"
  | 239, 172, 129 => Some "FI"
  | 239, 172, 130 => Some "FL"
  | 239, 172, 131 => Some "FFI"
  | 239, 172, 132 => Some "FFL"
  | 239, 172, 133 => Some "ST"
  | 239, 172, 134 => Some "ST"
  | _, _, _ => None
  end%nat.

(** [str.upper()], as far as a comparison with a name made of ASCII
    characters can tell: the ASCII letters, and the characters above.
    Every other character outside ASCII has an upper-case form outside
    ASCII and is left as it is here, so the result is exact for a
    string of ASCII characters, and equals a given ASCII name exactly
    when the result of [str.upper()] does. *)
Fixpoint upper (s : string) : string :=
  match s with
  | "" => ""
  | String a t =>
      let plain := String (upper_char a) (upper t) in
      match t with
      | "" => plain
      | String b t' =>
          match upper_two_bytes a b with
          | Some u => u +:+ upper t'
          | None =>
              match t' with
              | "" => plain
              | String c t'' =>
                  match upper_three_bytes a b c with
                  | Some u => u +:+ upper t''
                  | None => plain
                  end
              end
          end
      end
  end.

(** Every character of the string is an ASCII character. *)
Fixpoint ascii_only (s : string) : bool :=
  match s with
  | "" => true
  | String c t => (nat_of_ascii c <? 128)%nat && ascii_only t
  end.

Inductive pyval :=
  | PyInt (z : Z)
  | PyOther.

(** The attributes of the module [logging] whose names have no
    lower-case letter: the level constants, and two that are not
    numbers. *)
Definition logging_attr (name : string) : option pyval :=
  if String.eqb name "CRITICAL" then Some (PyInt 50)
  else if String.eqb name "FATAL" then Some (PyInt 50)
  else if String.eqb name "ERROR" then Some (PyInt 40)
  else if String.eqb name "WARNING" then Some (PyInt 30)
  else if String.eqb name "WARN" then Some (PyInt 30)
  else if String.eqb name "INFO" then Some (PyInt 20)
  else if String.eqb name "DEBUG" then Some (PyInt 10)
  else if String.eqb name "NOTSET" then Some (PyInt 0)
  else if String.eqb name "BASIC_FORMAT" then Some PyOther
  else if String.eqb name "_STYLES" then Some PyOther
  else None.

Definition getattr_logging (name : string) : IO pyval :=
  match logging_attr name with
  | Some v => mret v
  | None =>
      raise (Exn OtherException
               ("module 'logging' has no attribute '" +:+ name +:+ "'"))
  end.

Definition logging_log (level : pyval) (msg : string) : IO unit :=
  match level with
  | PyInt z => fun w => (Ok tt, set_log_records w (log_records w ++ [(z, msg)]))
  | PyOther => raise (Exn OtherException "level must be an integer")
  end.

(** [print(line)]: one write to the standard output, which can be
    refused like any other (a closed pipe, a character the encoding of
    the console lacks). *)
Definition stdout_write (line : string) : IO unit :=
  fun w => (Ok tt, set_stdout w (stdout w ++ [line])).

Definition print (line : string) : IO unit :=
  attempt;; stdout_write line.

(** Truth of a Python value that is [None] or a string. *)
Definition truthy (v : option string) : bool :=
  match v with
  | Some (String _ _) => true
  | _ => false
  end.

(** ** The program *)

Section Program.

(** [ET.fromstring], outside the program: a tree or the exception
    raised. *)
Variable fromstring : string -> exn + ET.Element.

(** The module-level [config = Config()]. *)
Variable config : Config.

Definition write_to_csv (file_name : string) (header data : list string) : IO unit :=
  file ← open_ file_name (file_write_mode config) (file_encoding config);
  pos ← tell file;
  (if (pos =? 0)%nat then writer_writerow file header else mret tt);;
  writer_writerow file data.

(** The call of the parser, recorded in [xml_seen]. *)
Definition ET_fromstring (content : string) : IO ET.Element :=
  fun w =>
    let w' := set_xml_seen w (xml_seen w ++ [content]) in
    match fromstring content with
    | inr root => (Ok root, w')
    | inl e => (Raise e, w')
    end.

Definition parse_xml_content (content : string) : IO (option string) :=
  try_except
    (root ← ET_fromstring content;
     let title_element := ET.find_descendant "title" root in
     mret (match title_element with
          | Some e => ET.text e
          | None => Some "无标题"
          end))
    (fun e =>
       match exn_cls e with
       | ParseError => mret (Some "XML解析错误")
       | _ => raise e
       end).

Definition log_and_print (log_message room_name : string) (message : Msg) : IO unit :=
  log_function ← getattr_logging (upper (log_level config));
  logging_log log_function log_message;;
  if Str.contains "Message saved" log_message then
    now ← datetime_now;
    print ("[" +:+ log_level config +:+ "] " +:+ str_datetime now +:+ " - "
           +:+ room_name +:+ " - " +:+ str_int (type message) +:+ " - "
           +:+ content message)
  else mret tt.

(** The local variables of [save_message_to_csv]. *)
Definition folder_path (room_name : string) (current_time : datetime) : string :=
  "./" +:+ room_name +:+ "/" +:+ strftime "%Y%m%d" current_time +:+ "/".

Definition file_name (folder_path : string) (current_time : datetime) : string :=
  folder_path +:+ "messages_" +:+ strftime "%Y%m%d%H" current_time +:+ ".csv".

Definition wants_title (message : Msg) : bool :=
  (type message =? 49) && is_group message.

Definition header (message : Msg) : list string :=
  if negb (wants_title message)
  then ["type"; "sender"; "content"; "extra"]
  else ["type"; "sender"; "title"; "content"; "extra"].

Definition data (message : Msg) (title_content : option string) : list string :=
  [str_int (type message); sender message;
   if truthy title_content then default "" title_content else content message;
   extra message].

Definition ineligible (message : Msg) : bool :=
  negb (bool_decide (type message ∈ accepted_types config))
  || negb (bool_decide (is_Some (chatroom_id_to_name config !! roomid message))).

(** The body of the [try] of [save_message_to_csv]. *)
Definition save_body (message : Msg) : IO unit :=
  if ineligible message then mret tt
  else
    let room_name := default "" (chatroom_id_to_name config !! roomid message) in
    current_time ← datetime_now;
    let folder_path := folder_path room_name current_time in
    there ← os_path_exists folder_path;
    (if negb there then os_makedirs folder_path else mret tt);;
    let file_name := file_name folder_path current_time in
    let header := header message in
    title_content ←
      (if wants_title message then parse_xml_content (content message)
       else mret (Some ""));
    let data := data message title_content in
    write_to_csv file_name header data;;
    log_and_print "[INFO] Message saved" room_name message.

(** Its [except] clauses, tried in order. *)
Definition save_handler (message : Msg) (e : exn) : IO unit :=
  let room_name := default "" (chatroom_id_to_name config !! roomid message) in
  match exn_cls e with
  | FileNotFoundError => log_and_print "[ERROR] File not found" room_name message
  | CsvError => log_and_print ("[ERROR] CSV error: " +:+ exn_str e) room_name message
  | _ => log_and_print ("[ERROR] An error occurred: " +:+ exn_str e) room_name message
  end.

Definition save_message_to_csv (message : Msg) : IO unit :=
  try_except (save_body message) (save_handler message).

(** What the caller of the endpoint gets: the dictionary returned, or
    the [HTTPException] raised. *)
Inductive Response :=
  | Returned (status : Z) (message : string)
  | HTTPException (status_code : Z) (detail : string).

Definition msg_cb (msg : Msg) : World -> Response * World :=
  fun w =>
    match save_message_to_csv msg w with
    | (Ok _, w') => (Returned 0 "成功", w')
    | (Raise e, w') => (HTTPException 500 (exn_str e), w')
    end.

End Program.

(** ** Reference points for the statements below *)

(** No operation on the file system or the standard output fails for
    an outside reason. *)
Definition calm (w : World) : Prop := forall k, faults w k = None.

(** A file after one call of [write_to_csv] in append mode: the header
    goes in when the position after opening is zero, then the row. *)
Definition appended (encoding : string) (header data : list string) (f : File) : File :=
  {| bom := bom f || (writes_bom encoding && (size f =? 0)%nat);
     text := text f
             +:+ (if (size f =? 0)%nat then Csv.writerow header else "")
             +:+ Csv.writerow data |}.

(** What [parse_xml_content] returns, as a function of what the parser
    answers. *)
Definition title_result (fromstring : string -> exn + ET.Element) (content : string)
  : Result (option string) :=
  match fromstring content with
  | inr root =>
      match ET.find_descendant "title" root with
      | Some e => Ok (ET.text e)
      | None => Ok (Some "无标题")
      end
  | inl e =>
      match exn_cls e with
      | ParseError => Ok (Some "XML解析错误")
      | _ => Raise e
      end
  end.

(** The date and hour stamps of the directory layout, digit by digit:
    four digits of year, two of month, two of day; two of hour. *)
Definition YYYYMMDD (t : datetime) : string :=
  pad0 4 (year t) +:+ pad0 2 (month t) +:+ pad0 2 (day t).

Definition HH (t : datetime) : string := pad0 2 (hour t).

(** A computation that leaves the record of parser calls alone. *)
Definition keeps_xml {A} (m : IO A) : Prop :=
  forall w, xml_seen (snd (m w)) = xml_seen w.

(** The step of [save_message_to_csv] that sets [title_content]. *)
Definition title_step (fromstring : string -> exn + ET.Element) (message : Msg)
  : Result (option string) :=
  if wants_title message then title_result fromstring (content message)
  else Ok (Some "").

(** What [os.path.exists] answers in a world. *)
Definition exists_in (w : World) (path : string) : bool :=
  bool_decide (path ∈ dirs w) || bool_decide (is_Some (files w !! path)).

(** A sequence of calls of [write_to_csv] on one file, each with its
    header and row. *)
Fixpoint appends (config : Config) (file_name : string)
    (calls : list (list string * list string)) : IO unit :=
  match calls with
  | [] => mret tt
  | (header, data) :: rest =>
      write_to_csv config file_name header data;;
      appends config file_name rest
  end.

(** The target file is absent, or there with no byte in it. *)
Definition fresh (w : World) (file_name : string) : Prop :=
  files w !! file_name = None \/ files w !! file_name = Some empty_file.

(** The level [log_and_print] logs at, when [config.log_level] names
    one. *)
Definition level_of (config : Config) : option Z :=
  match logging_attr (upper (log_level config)) with
  | Some (PyInt z) => Some z
  | _ => None
  end.

(** The message of the [except] clause that catches [e]. *)
Definition error_message (e : exn) : string :=
  match exn_cls e with
  | FileNotFoundError => "[ERROR] File not found"
  | CsvError => "[ERROR] CSV error: " +:+ exn_str e
  | _ => "[ERROR] An error occurred: " +:+ exn_str e
  end.

(** ** Sample inputs *)

Definition sample_time : datetime :=
  {| year := 2024; month := 3; day := 5;
     hour := 14; minute := 27; second := 0; microsecond := 0 |}.

Definition sample_config : Config :=
  {| accepted_types := {[ 1; 49 ]};
     chatroom_id_to_name := {[ "123@chatroom" := "Team A" ]};
     log_level := "INFO"; host := "127.0.0.1"; port := 8001;
     file_encoding := "utf-8-sig"; file_write_mode := "a";
     date_format := "%Y%m%d%H" |}.

(** An empty file system, the clock at [sample_time], nothing failing. *)
Definition sample_world : World :=
  {| dirs := ∅; files := ∅; clock := fun _ => sample_time; ticks := 0;
     faults := fun _ => None; ops := 0;
     log_records := []; stdout := []; xml_seen := [] |}.

(** The same, with the first operation on the file system refused. *)
Definition refusing_world : World :=
  {| dirs := ∅; files := ∅; clock := fun _ => sample_time; ticks := 0;
     faults := fun k =>
       match k with
       | O => Some (Exn OtherException "[Errno 13] Permission denied: './Team A/20240305/'")
       | _ => None
       end;
     ops := 0; log_records := []; stdout := []; xml_seen := [] |}.

Definition sample_message (type : Z) (is_group : bool) (roomid content : string) : Msg :=
  {| id := 1; ts := 1709648820; sign := "sig"; type := type; xml := "";
     sender := "wxid_a"; roomid := roomid; content := content;
     thumb := ""; extra := "ext";
     is_at := false; is_self := false; is_group := is_group |}.

(** A shared article in a configured group. *)
Definition article : Msg :=
  sample_message 49 true "123@chatroom" "<msg><title>Hello</title></msg>".

(** A text message in a configured group. *)
Definition plain_text : Msg :=
  sample_message 1 true "123@chatroom" "hello, world".

(** A message from a room that is not configured. *)
Definition stranger : Msg :=
  sample_message 1 true "999@chatroom" "hi".

(** ** [read_group_ids]

    The file object of [aiofiles] has [__aiter__] and no [__iter__]:
    [csv.reader(file)] calls [iter(file)], which raises [TypeError]
    before a line is read.  The text of the exception is the one of
    the interpreter and names the class of the object. *)

(** [[row[0] for row in rows if row]]. *)
Definition first_fields (rows : list (list string)) : list string :=
  flat_map (fun row => match row with [] => [] | x :: _ => [x] end) rows.

Definition not_iterable : exn :=
  Exn OtherException "'AsyncTextIOWrapper' object is not iterable".

Definition csv_reader_file (file : TextFile) : IO (list (list string)) :=
  raise not_iterable.

Definition read_group_ids (file_path : string) : IO (list string) :=
  try_except
    (file ← open_ file_path "r" "utf-8";
     rows ← csv_reader_file file;
     mret (first_fields rows))
    (fun e =>
       match exn_cls e with
       | FileNotFoundError => mret []
       | _ => raise e
       end).

(** ** Further reference points *)

(** The statements of [save_message_to_csv] between the reading of
    the clock and the final [log_and_print]: directory, title, row. *)
Definition store_at (fromstring : string -> exn + ET.Element) (config : Config)
    (message : Msg) (room_name : string) (current_time : datetime) : IO unit :=
  let folder_path := folder_path room_name current_time in
  there ← os_path_exists folder_path;
  (if negb there then os_makedirs folder_path else mret tt);;
  let file_name := file_name folder_path current_time in
  title_content ←
    (if wants_title message then parse_xml_content fromstring (content message)
     else mret (Some ""));
  write_to_csv config file_name (header message) (data message title_content).

(** The operations on the file system that storing a message attempts
    in append mode, in order, as long as none fails: [os.makedirs]
    when the day's directory is missing, the opening of the file, the
    write of the header when the file is missing or empty, the write
    of the row. *)
Inductive storage_op := MakeDirs | OpenFile | WriteHeader | WriteRow.

Definition storage_ops (config : Config) (message : Msg) (w : World) : list storage_op :=
  let room_name := default "" (chatroom_id_to_name config !! roomid message) in
  let current_time := clock w (ticks w) in
  let fp := folder_path room_name current_time in
  let fn := file_name fp current_time in
  (if exists_in w fp then [] else [MakeDirs])
  ++ [OpenFile]
  ++ (if (size (default empty_file (files w !! fn)) =? 0)%nat then [WriteHeader] else [])
  ++ [WriteRow].

(** Reading a decimal numeral back. *)
Definition undecimal (s : string) : option Z :=
  option_map (fun u => Z.of_N (N.of_uint u)) (NilZero.uint_of_string s).

(** The first text is the start of the second. *)
Definition text_prefix (a b : string) : Prop := exists c, b = a +:+ c.

(** Nothing that was there is lost: every directory stays, every file
    stays and keeps its text (and its mark) at the front. *)
Definition append_only (w w' : World) : Prop :=
  dirs w ⊆ dirs w'
  /\ forall p f, files w !! p = Some f ->
       exists f', files w' !! p = Some f'
                  /\ text_prefix (text f) (text f')
                  /\ (bom f = true -> bom f' = true).

(** Only the file [fn] may differ, and the only new directories are
    [fp] and the ones above it. *)
Definition touches_only (fn fp : string) (w w' : World) : Prop :=
  (forall p, p <> fn -> files w' !! p = files w !! p)
  /\ (forall d, d ∈ dirs w' -> d ∈ dirs w \/ d = fp \/ d ∈ dir_prefixes "" fp).

(** The files are what they were. *)
Definition same_files (w w' : World) : Prop := files w' = files w.

(** The log is what it was. *)
Definition same_log (w w' : World) : Prop := log_records w' = log_records w.

(** Every run of [m] relates the world before to the world after. *)
Definition preserves {A} (R : World -> World -> Prop) (m : IO A) : Prop :=
  forall w, R w (snd (m w)).

(** The exception [log_and_print] raises when [config.log_level] names
    no level: no such attribute, or an attribute that is no number. *)
Definition level_error (config : Config) : exn :=
  match logging_attr (upper (log_level config)) with
  | None =>
      Exn OtherException
        ("module 'logging' has no attribute '" +:+ upper (log_level config) +:+ "'")
  | Some _ => Exn OtherException "level must be an integer"
  end.

(** The third field of the row of a shared article, from what the
    parser answers: the title when there is one with text, the raw
    content when the title element is empty, the literals otherwise. *)
Definition third_field (parsed : exn + ET.Element) (content : string) : option string :=
  match parsed with
  | inr root =>
      match ET.first_named "title" root with
      | Some e =>
          match ET.text e with
          | Some (String c s) => Some (String c s)
          | _ => Some content
          end
      | None => Some "无标题"
      end
  | inl e =>
      match exn_cls e with
      | ParseError => Some "XML解析错误"
      | _ => None
      end
  end.

(** More sample inputs. *)

Definition truncating_config : Config :=
  {| accepted_types := {[ 1; 49 ]};
     chatroom_id_to_name := {[ "123@chatroom" := "Team A" ]};
     log_level := "INFO"; host := "127.0.0.1"; port := 8001;
     file_encoding := "utf-8-sig"; file_write_mode := "w";
     date_format := "%Y%m%d%H" |}.

Definition reading_config : Config :=
  {| accepted_types := {[ 1; 49 ]};
     chatroom_id_to_name := {[ "123@chatroom" := "Team A" ]};
     log_level := "INFO"; host := "127.0.0.1"; port := 8001;
     file_encoding := "utf-8-sig"; file_write_mode := "r";
     date_format := "%Y%m%d%H" |}.

Definition mislevelled_config : Config :=
  {| accepted_types := {[ 1; 49 ]};
     chatroom_id_to_name := {[ "123@chatroom" := "Team A" ]};
     log_level := "verbose"; host := "127.0.0.1"; port := 8001;
     file_encoding := "utf-8-sig"; file_write_mode := "a";
     date_format := "%Y%m%d%H" |}.

(** A world where one file already holds a line. *)
Definition used_world : World :=
  {| dirs := {[ "./" ]};
     files := {[ "old.csv" := {| bom := true; text := "a,b" +:+ Csv.lineterminator |} ]};
     clock := fun _ => sample_time; ticks := 0;
     faults := fun _ => None; ops := 0;
     log_records := []; stdout := []; xml_seen := [] |}.

(** The hour after [sample_time]. *)
Definition sample_time_next_hour : datetime :=
  {| year := 2024; month := 3; day := 5;
     hour := 15; minute := 0; second := 0; microsecond := 0 |}.

(** Half an hour after [sample_time]. *)
Definition sample_time_later : datetime :=
  {| year := 2024; month := 3; day := 5;
     hour := 14; minute := 59; second := 30; microsecond := 250 |}.

(** A parser that cannot even encode its input. *)
Definition refusing_parser : string -> exn + ET.Element :=
  fun _ => inl (Exn OtherException "'utf-8' codec can't encode: surrogates not allowed").

(** A lookup of room ids in an existing one-column file. *)
Definition ids_world : World :=
  {| dirs := {[ "./" ]};
     files := {[ "groups.csv" :=
                   {| bom := false; text := "123@chatroom" +:+ Csv.lineterminator |} ]};
     clock := fun _ => sample_time; ticks := 0;
     faults := fun _ => None; ops := 0;
     log_records := []; stdout := []; xml_seen := [] |}.

(** An empty file system on a disk with room for the header only: the
    write of the row, the fourth operation, is refused. *)
Definition full_disk_world : World :=
  {| dirs := ∅; files := ∅; clock := fun _ => sample_time; ticks := 0;
     faults := fun k =>
       if (k =? 3)%nat
       then Some (Exn OtherException "[Errno 28] No space left on device")
       else None;
     ops := 0; log_records := []; stdout := []; xml_seen := [] |}.

(** An empty file system whose standard output is closed: the four
    operations that store a first row go through, every later one is
    refused. *)
Definition deaf_world : World :=
  {| dirs := ∅; files := ∅; clock := fun _ => sample_time; ticks := 0;
     faults := fun k =>
       if (k <? 4)%nat then None
       else Some (Exn OtherException "[Errno 32] Broken pipe");
     ops := 0; log_records := []; stdout := []; xml_seen := [] |}.

(** A shared article whose title element is empty, one whose payload
    is not markup, and one the reference parser does not cover. *)
Definition untitled_article : Msg :=
  sample_message 49 true "123@chatroom" "<msg><title></title></msg>".

Definition broken_article : Msg :=
  sample_message 49 true "123@chatroom" "not-xml<<<".

Definition attributed_article : Msg :=
  sample_message 49 true "123@chatroom" "<msg a='1'><title>T</title></msg>".

(** * Properties *)

(** ** Facts about strings *)

Module StrFacts.

Lemma append_nil_r (s : string) : s +:+ "" = s.
Proof. induction s as [|c s IH]; simpl; [reflexivity | now rewrite IH]. Qed.

Lemma append_assoc (a b c : string) : (a +:+ b) +:+ c = a +:+ (b +:+ c).
Proof. induction a as [|x a IH]; simpl; [reflexivity | now rewrite IH]. Qed.

Lemma append_snoc (a : string) (c : ascii) (b : string) :
  (a +:+ String c "") +:+ b = a +:+ String c b.
Proof. now rewrite append_assoc. Qed.

Lemma length_append (a b : string) :
  String.length (a +:+ b) = (String.length a + String.length b)%nat.
Proof. induction a as [|x a IH]; simpl; [reflexivity | now rewrite IH]. Qed.

Lemma append_not_nil_r (a b : string) : b <> "" -> a +:+ b <> "".
Proof. destruct a; simpl; [auto | discriminate]. Qed.

Lemma concat_app (l1 l2 : list string) :
  Str.concat (l1 ++ l2) = Str.concat l1 +:+ Str.concat l2.
Proof.
  induction l1 as [|s l1 IH]; simpl; [reflexivity|].
  now rewrite IH, append_assoc.
Qed.

End StrFacts.

(** ** The reader inverts the writer *)

Module CsvFacts.
Import Csv StrFacts.

Lemma special_false (c : ascii) :
  special c = false ->
  (c =? delimiter)%char = false /\ (c =? quotechar)%char = false
  /\ (c =? CR)%char = false /\ (c =? LF)%char = false.
Proof.
  unfold special. intros H.
  repeat (apply orb_false_iff in H; destruct H as [H ?]). auto.
Qed.

Lemma is_nil_false (s : string) : s <> "" -> is_nil s = false.
Proof. destruct s; [congruence | reflexivity]. Qed.

Lemma events_cons (c : ascii) (t : string) :
  (c =? CR)%char = false -> (c =? LF)%char = false -> t <> "" ->
  events (String c t) = Chr c :: events t.
Proof.
  intros HCR HLF Ht. simpl. unfold ends_line.
  now rewrite HCR, HLF, (is_nil_false _ Ht).
Qed.

Lemma events_lineterminator (tail : string) :
  events (lineterminator +:+ tail) = Chr CR :: Chr LF :: EOL :: events tail.
Proof. reflexivity. Qed.

Lemma read_rows_Chr (r : Reader) (c : ascii) (evs : list event) :
  read_rows r (Chr c :: evs) =
  match parse_process_char r (Chr c) with
  | None => None
  | Some r' => read_rows r' evs
  end.
Proof. reflexivity. Qed.

(** An unquoted field is copied character by character. *)
Lemma read_in_field (u : string) :
  forall (fs : list string) (acc tail : string),
    needs_quotes u = false -> tail <> "" ->
    read_rows (mkReader IN_FIELD fs acc) (events (u +:+ tail)) =
    read_rows (mkReader IN_FIELD fs (acc +:+ u)) (events tail).
Proof.
  induction u as [|c u IH]; intros fs acc tail Hq Ht.
  - now rewrite append_nil_r.
  - simpl in Hq. apply orb_false_iff in Hq as [Hc Hu].
    apply special_false in Hc as (Hd & Hqc & HCR & HLF).
    change (String c u +:+ tail) with (String c (u +:+ tail)).
    rewrite events_cons by auto using append_not_nil_r.
    rewrite read_rows_Chr. unfold parse_process_char, is_newline; simpl.
    rewrite HLF, HCR, Hd; simpl.
    unfold parse_add_char; simpl.
    rewrite IH by assumption. now rewrite append_snoc.
Qed.

(** Inside quotes every character is kept, a doubled quote stands for
    one quote, and the end-of-line markers are ignored. *)
Lemma read_in_quoted (q : string) :
  forall (fs : list string) (acc tail : string),
    tail <> "" ->
    read_rows (mkReader IN_QUOTED_FIELD fs acc)
              (events (copy_field q +:+ String quotechar tail)) =
    read_rows (mkReader QUOTE_IN_QUOTED_FIELD fs (acc +:+ q)) (events tail).
Proof.
  induction q as [|c q IH]; intros fs acc tail Ht.
  - rewrite append_nil_r. simpl copy_field.
    change ("" +:+ String quotechar tail) with (String quotechar tail).
    rewrite events_cons by (auto; reflexivity). reflexivity.
  - assert (Hne : copy_field q +:+ String quotechar tail <> "")
      by (apply append_not_nil_r; discriminate).
    simpl copy_field. destruct (c =? quotechar)%char eqn:Hc.
    + apply Ascii.eqb_eq in Hc. subst c.
      change (String quotechar (String quotechar (copy_field q)) +:+ String quotechar tail)
        with (String quotechar (String quotechar (copy_field q +:+ String quotechar tail))).
      rewrite events_cons by (try reflexivity; discriminate).
      rewrite events_cons by (try reflexivity; assumption).
      rewrite !read_rows_Chr. simpl.
      unfold parse_add_char; simpl.
      rewrite IH by assumption. now rewrite append_snoc.
    + change (String c (copy_field q) +:+ String quotechar tail)
        with (String c (copy_field q +:+ String quotechar tail)).
      cbn [events]. rewrite read_rows_Chr.
      unfold parse_process_char; simpl. rewrite Hc.
      unfold parse_add_char; simpl.
      destruct (ends_line c _); simpl;
        (rewrite IH by assumption; now rewrite append_snoc).
Qed.

(** The text of one field, read from the start of a record or of a
    field.  At the start of a record the field must have some text. *)
Lemma read_field (g : string) (st0 : ParserState) (fs : list string) (tail : string) :
  field_start st0 = true ->
  (st0 = START_RECORD -> g <> "") ->
  tail <> "" ->
  exists st, field_done st = true /\
    read_rows (mkReader st0 fs "") (events (join_append g +:+ tail)) =
    read_rows (mkReader st fs g) (events tail).
Proof.
  intros Hst0 Hg Ht. unfold join_append.
  destruct (needs_quotes g) eqn:Hq.
  - exists QUOTE_IN_QUOTED_FIELD. split; [reflexivity|].
    change (String quotechar (copy_field g +:+ String quotechar "") +:+ tail)
      with (String quotechar ((copy_field g +:+ String quotechar "") +:+ tail)).
    rewrite append_snoc.
    rewrite events_cons
      by (try reflexivity; apply append_not_nil_r; discriminate).
    rewrite read_rows_Chr.
    replace (parse_process_char (mkReader st0 fs "") (Chr quotechar))
      with (Some (mkReader IN_QUOTED_FIELD fs ""))
      by (destruct st0; try discriminate; reflexivity).
    now rewrite read_in_quoted.
  - destruct g as [|c g].
    + exists START_FIELD. split; [reflexivity|].
      destruct st0; try discriminate; [now destruct Hg | reflexivity].
    + exists IN_FIELD. split; [reflexivity|].
      simpl in Hq. apply orb_false_iff in Hq as [Hc Hu].
      apply special_false in Hc as (Hd & Hqc & HCR & HLF).
      change (String c g +:+ tail) with (String c (g +:+ tail)).
      rewrite events_cons by auto using append_not_nil_r.
      rewrite read_rows_Chr.
      replace (parse_process_char (mkReader st0 fs "") (Chr c))
        with (Some (mkReader IN_FIELD fs (String c "")))
        by (destruct st0; try discriminate;
            unfold parse_process_char, start_field, is_newline; simpl;
            now rewrite HLF, HCR, Hqc, Hd).
      now rewrite read_in_field.
Qed.

(** A delimiter closes the field being read. *)
Lemma read_delimiter (st : ParserState) (fs : list string) (acc tail : string) :
  field_done st || field_start st = true -> tail <> "" ->
  read_rows (mkReader st fs acc) (events (String delimiter tail)) =
  read_rows (mkReader START_FIELD (fs ++ [acc]) "") (events tail).
Proof.
  intros Hst Ht.
  rewrite events_cons by (try reflexivity; assumption).
  rewrite read_rows_Chr.
  destruct st; try discriminate; reflexivity.
Qed.

Lemma join_rest_tail_not_nil (gs : list string) (tail : string) :
  join_rest gs +:+ lineterminator +:+ tail <> "".
Proof. apply append_not_nil_r. discriminate. Qed.

(** The remaining fields of a record and its line terminator. *)
Lemma read_rest (gs : list string) :
  forall (st : ParserState) (fs : list string) (acc tail : string),
    field_done st = true ->
    read_rows (mkReader st fs acc)
              (events (join_rest gs +:+ lineterminator +:+ tail)) =
    option_map (cons (fs ++ acc :: gs)) (read_rows parse_reset (events tail)).
Proof.
  induction gs as [|g gs IH]; intros st fs acc tail Hst.
  - change (join_rest [] +:+ lineterminator +:+ tail) with (lineterminator +:+ tail).
    rewrite events_lineterminator.
    destruct st; try discriminate; reflexivity.
  - change (join_rest (g :: gs) +:+ lineterminator +:+ tail)
      with (String delimiter ((join_append g +:+ join_rest gs) +:+ lineterminator +:+ tail)).
    rewrite append_assoc.
    rewrite read_delimiter;
      [| now rewrite Hst | apply append_not_nil_r, join_rest_tail_not_nil].
    destruct (read_field g START_FIELD (fs ++ [acc])
                (join_rest gs +:+ lineterminator +:+ tail))
      as (st' & Hst' & ->);
      [reflexivity | discriminate | apply join_rest_tail_not_nil |].
    rewrite IH by assumption. now rewrite <- app_assoc.
Qed.

(** One written row followed by more text: the reader yields the row
    and goes on with the text from a fresh state. *)
Lemma read_writerow (row : list string) (tail : string) :
  read_rows parse_reset (events (writerow row +:+ tail)) =
  option_map (cons row) (read_rows parse_reset (events tail)).
Proof.
  unfold writerow. destruct row as [|f fs]; [reflexivity|].
  destruct f as [|c f].
  - destruct fs as [|g gs]; [reflexivity|].
    change (join_row ("" :: g :: gs)) with (join_rest (g :: gs)).
    replace ((0 <? length ("" :: g :: gs))%nat
             && (String.length (join_rest (g :: gs)) =? 0)%nat) with false
      by reflexivity.
    rewrite append_assoc. unfold parse_reset.
    change (join_rest (g :: gs) +:+ lineterminator +:+ tail)
      with (String delimiter ((join_append g +:+ join_rest gs) +:+ lineterminator +:+ tail)).
    rewrite append_assoc.
    rewrite read_delimiter;
      [| reflexivity | apply append_not_nil_r, join_rest_tail_not_nil].
    destruct (read_field g START_FIELD ([] ++ [""])
                (join_rest gs +:+ lineterminator +:+ tail))
      as (st' & Hst' & ->);
      [reflexivity | discriminate | apply join_rest_tail_not_nil |].
    now rewrite read_rest.
  - assert (Hlen : (String.length (join_row (String c f :: fs)) =? 0)%nat = false).
    { unfold join_row, join_append.
      destruct (needs_quotes (String c f)); reflexivity. }
    rewrite Hlen, andb_false_r.
    unfold join_row. rewrite !append_assoc. unfold parse_reset.
    destruct (read_field (String c f) START_RECORD []
                (join_rest fs +:+ lineterminator +:+ tail))
      as (st' & Hst' & ->);
      [reflexivity | discriminate | apply join_rest_tail_not_nil |].
    now rewrite read_rest.
Qed.

(** Any sequence of written rows is read back as the rows supplied. *)
Lemma reader_writerows (rows : list (list string)) :
  reader (Str.concat (map writerow rows)) = Some rows.
Proof.
  unfold reader. induction rows as [|row rows IH]; [reflexivity|].
  simpl Str.concat. simpl map. cbn [Str.concat].
  now rewrite read_writerow, IH.
Qed.

(** One written row reads back as that row alone. *)
Lemma reader_writerow (row : list string) :
  reader (writerow row) = Some [row].
Proof.
  rewrite <- (append_nil_r (writerow row)).
  apply (reader_writerows [row]).
Qed.

End CsvFacts.


(** ** The operations in a world *)

Module IOFacts.

Lemma bind_ok {A B} (m : IO A) (k : A -> IO B) (w w' : World) (a : A) :
  m w = (Ok a, w') -> (m ≫= k) w = k a w'.
Proof. intros H. unfold mbind, IO_bind. now rewrite H. Qed.

Lemma bind_raise {A B} (m : IO A) (k : A -> IO B) (w w' : World) (e : exn) :
  m w = (Raise e, w') -> (m ≫= k) w = (Raise e, w').
Proof. intros H. unfold mbind, IO_bind. now rewrite H. Qed.

Lemma bind_unfold {A B} (m : IO A) (k : A -> IO B) (w : World) :
  (m ≫= k) w =
  match m w with
  | (Ok a, w') => k a w'
  | (Raise e, w') => (Raise e, w')
  end.
Proof. reflexivity. Qed.

Lemma attempt_calm (w : World) :
  calm w -> attempt w = (Ok tt, set_ops w (S (ops w))).
Proof. intros H. unfold attempt. now rewrite H. Qed.

Lemma attempt_ok (w : World) :
  faults w (ops w) = None -> attempt w = (Ok tt, set_ops w (S (ops w))).
Proof. intros H. unfold attempt. now rewrite H. Qed.

Lemma attempt_refused (w : World) (e : exn) :
  faults w (ops w) = Some e -> attempt w = (Raise e, set_ops w (S (ops w))).
Proof. intros H. unfold attempt. now rewrite H. Qed.

Lemma calm_faults (w w' : World) : faults w' = faults w -> calm w -> calm w'.
Proof. intros E H k. now rewrite E. Qed.

(** Unfolds the sequencing of the operations and runs the attempts
    that the hypothesis [Hc : calm _] lets through. *)
Ltac run_io Hc :=
  unfold open_, os_makedirs, writer_writerow, write, print;
  unfold attempt, tell, append_text, open_file, mkdirs, raise,
    os_path_exists, datetime_now, stdout_write, logging_log;
  unfold mbind, IO_bind, mret, IO_ret;
  simpl; repeat (progress (rewrite ?Hc, ?lookup_insert_eq); simpl).

Lemma size_after_row (f : File) (b : bool) (row : list string) :
  (size {| bom := b; text := text f +:+ Csv.writerow row |} =? 0)%nat = false.
Proof.
  apply Nat.eqb_neq. unfold size, Csv.writerow; simpl.
  rewrite !StrFacts.length_append. simpl. lia.
Qed.

(** One call of [write_to_csv] in append mode, nothing failing. *)
Lemma write_to_csv_calm (config : Config) (fn : string) (h d : list string) (w : World) :
  calm w -> file_write_mode config = "a" ->
  exists n,
    write_to_csv config fn h d w =
    (Ok tt,
     set_files (set_ops w n)
       (<[fn := appended (file_encoding config) h d
                  (default empty_file (files w !! fn))]> (files w))).
Proof.
  intros Hc Hm. unfold write_to_csv. rewrite Hm.
  run_io Hc.
  set (f0 := default empty_file (files w !! fn)).
  unfold appended.
  destruct (size f0 =? 0)%nat eqn:Hz.
  - exists (S (S (S (ops w)))). run_io Hc.
    rewrite Hz, size_after_row.
    unfold set_files, set_ops; simpl.
    rewrite !insert_insert_eq, andb_false_r, orb_false_r.
    now rewrite StrFacts.append_assoc.
  - exists (S (S (ops w))). run_io Hc.
    rewrite Hz.
    unfold set_files, set_ops; simpl.
    now rewrite !insert_insert_eq.
Qed.

(** One call of [write_to_csv] in append mode whose operation number
    [k] is refused, the ones before going through: the opening of the
    file, then the write of the header when the file is empty, then
    the write of the row.  The refusal is what the call raises, and
    nothing is attempted after it. *)
Lemma write_to_csv_refused (config : Config) (fn : string) (h d : list string)
    (w : World) (k : nat) (e : exn) :
  file_write_mode config = "a" ->
  (k < 2 + (if (size (default empty_file (files w !! fn)) =? 0)%nat then 1 else 0))%nat ->
  (forall j, (j < k)%nat -> faults w (ops w + j) = None) ->
  faults w (ops w + k) = Some e ->
  exists w',
    write_to_csv config fn h d w = (Raise e, w')
    /\ ops w' = (ops w + S k)%nat /\ faults w' = faults w
    /\ dirs w' = dirs w /\ log_records w' = log_records w.
Proof.
  intros Hm Hk Hbefore Hat.
  unfold write_to_csv. rewrite Hm.
  set (f0 := default empty_file (files w !! fn)) in *.
  destruct k as [|k].
  { rewrite Nat.add_0_r in Hat. run_io Hat.
    eexists. split; [reflexivity|]. simpl. repeat split; lia. }
  pose proof (Hbefore 0%nat ltac:(lia)) as H0. rewrite Nat.add_0_r in H0.
  destruct k as [|k].
  { rewrite Nat.add_1_r in Hat. run_io H0. fold f0.
    destruct (size f0 =? 0)%nat; run_io Hat;
      eexists; (split; [reflexivity|]); simpl; repeat split; lia. }
  pose proof (Hbefore 1%nat ltac:(lia)) as H1. rewrite Nat.add_1_r in H1.
  destruct (size f0 =? 0)%nat eqn:Hz; [|simpl in Hk; lia].
  destruct k as [|k]; [|simpl in Hk; lia].
  replace (ops w + 2)%nat with (S (S (ops w))) in Hat by lia.
  run_io H0. fold f0. rewrite Hz. run_io H1. run_io Hat.
  eexists. split; [reflexivity|]. simpl. repeat split; lia.
Qed.

Lemma appended_size (enc : string) (h d : list string) (f : File) :
  size (appended enc h d f) <> 0%nat.
Proof.
  unfold appended, size, Csv.writerow; simpl.
  rewrite !StrFacts.length_append. simpl. lia.
Qed.

Lemma appended_fresh (enc : string) (h d : list string) :
  text (appended enc h d empty_file) = Csv.writerow h +:+ Csv.writerow d.
Proof. reflexivity. Qed.

Lemma appended_later (enc : string) (h d : list string) (f : File) :
  size f <> 0%nat -> text (appended enc h d f) = text f +:+ Csv.writerow d.
Proof.
  intros H. unfold appended; simpl.
  apply Nat.eqb_neq in H. now rewrite H.
Qed.

(** Appends to a file that already holds something only add rows. *)
Lemma appends_later (config : Config) (fn : string)
    (calls : list (list string * list string)) :
  forall (w : World) (f : File),
    calm w -> file_write_mode config = "a" ->
    files w !! fn = Some f -> size f <> 0%nat ->
    exists w' f',
      appends config fn calls w = (Ok tt, w')
      /\ files w' !! fn = Some f'
      /\ text f' = text f +:+ Str.concat (map Csv.writerow (map snd calls)).
Proof.
  induction calls as [|[h d] calls IH]; intros w f Hc Hm Hf Hs.
  - exists w, f. simpl. now rewrite StrFacts.append_nil_r.
  - destruct (write_to_csv_calm config fn h d w Hc Hm) as [n Hw].
    rewrite Hf in Hw; simpl in Hw.
    simpl appends. erewrite bind_ok by exact Hw.
    destruct (IH (set_files (set_ops w n)
                    (<[fn := appended (file_encoding config) h d f]> (files w)))
                 (appended (file_encoding config) h d f))
      as (w' & f' & Hr & Hf' & Ht).
    + intros k; apply Hc.
    + assumption.
    + simpl. apply lookup_insert_eq.
    + apply appended_size.
    + exists w', f'. repeat split; try assumption.
      rewrite Ht, appended_later by assumption.
      simpl. now rewrite StrFacts.append_assoc.
Qed.

End IOFacts.

(** ** Rows and headers *)

(** C8: every row written by [csv.writer] reads back, with the same
    delimiter and quoting rules, as exactly the fields supplied,
    whatever characters the fields hold (delimiter, quote, line
    breaks included); and so does any sequence of rows. *)
Theorem writerow_reader_roundtrip :
  (forall row : list string, Csv.reader (Csv.writerow row) = Some [row])
  /\ (forall rows : list (list string),
        Csv.reader (Str.concat (map Csv.writerow rows)) = Some rows).
Proof.
  split.
  - apply CsvFacts.reader_writerow.
  - apply CsvFacts.reader_writerows.
Qed.

(** C7: [N >= 1] calls of [write_to_csv] in append mode on a file that
    starts absent or empty leave one header row (the header of the
    first call) followed by the [N] data rows in the order of the
    calls; and any one call writes the header exactly when the
    position after opening is zero. *)
Theorem appends_single_header (config : Config) (fn : string)
    (calls : list (list string * list string)) (w : World) :
  (1 <= length calls)%nat ->
  file_write_mode config = "a" ->
  calm w ->
  fresh w fn ->
  (exists w' f,
      appends config fn calls w = (Ok tt, w')
      /\ files w' !! fn = Some f
      /\ text f = Csv.writerow (hd [] (map fst calls))
                  +:+ Str.concat (map Csv.writerow (map snd calls))
      /\ Csv.reader (text f) = Some (hd [] (map fst calls) :: map snd calls))
  /\ (forall (h d : list string) (w1 : World),
        calm w1 ->
        exists w2 f2,
          write_to_csv config fn h d w1 = (Ok tt, w2)
          /\ files w2 !! fn = Some f2
          /\ let f1 := default empty_file (files w1 !! fn) in
             text f2 = text f1
                       +:+ (if (size f1 =? 0)%nat then Csv.writerow h else "")
                       +:+ Csv.writerow d).
Proof.
  intros HN Hm Hc Hfresh. split.
  - destruct calls as [|[h d] calls]; [simpl in HN; lia|].
    destruct (IOFacts.write_to_csv_calm config fn h d w Hc Hm) as [n Hw].
    assert (Hf0 : default empty_file (files w !! fn) = empty_file)
      by (destruct Hfresh as [-> | ->]; reflexivity).
    rewrite Hf0 in Hw.
    destruct (IOFacts.appends_later config fn calls
                (set_files (set_ops w n)
                   (<[fn := appended (file_encoding config) h d empty_file]> (files w)))
                (appended (file_encoding config) h d empty_file))
      as (w' & f' & Hr & Hf' & Ht).
    + intros k; apply Hc.
    + assumption.
    + simpl. apply lookup_insert_eq.
    + apply IOFacts.appended_size.
    + exists w', f'. simpl appends. erewrite IOFacts.bind_ok by exact Hw.
      assert (Htext : text f' = Csv.writerow h
                +:+ Str.concat (map Csv.writerow (d :: map snd calls))).
      { rewrite Ht, IOFacts.appended_fresh. simpl.
        now rewrite StrFacts.append_assoc. }
      repeat split; try assumption.
      rewrite Htext.
      apply (CsvFacts.reader_writerows (h :: d :: map snd calls)).
  - intros h d w1 Hc1.
    destruct (IOFacts.write_to_csv_calm config fn h d w1 Hc1 Hm) as [n Hw].
    eexists _, _. split; [exact Hw|]. split; [simpl; apply lookup_insert_eq|].
    reflexivity.
Qed.

Lemma appends_single_header_witness :
  exists w' f,
    appends sample_config "messages.csv"
      [(["type"; "sender"; "content"; "extra"], ["1"; "a"; "x,y"; ""]);
       (["type"; "sender"; "title"; "content"; "extra"], ["49"; "b"; "t"; "e"]);
       (["type"; "sender"; "content"; "extra"], ["1"; "c"; "z"; ""])]
      sample_world = (Ok tt, w')
    /\ files w' !! "messages.csv" = Some f
    /\ Csv.reader (text f) =
       Some [["type"; "sender"; "content"; "extra"];
             ["1"; "a"; "x,y"; ""]; ["49"; "b"; "t"; "e"]; ["1"; "c"; "z"; ""]].
Proof.
  destruct (appends_single_header sample_config "messages.csv"
              [(["type"; "sender"; "content"; "extra"], ["1"; "a"; "x,y"; ""]);
               (["type"; "sender"; "title"; "content"; "extra"], ["49"; "b"; "t"; "e"]);
               (["type"; "sender"; "content"; "extra"], ["1"; "c"; "z"; ""])]
              sample_world)
    as [(w' & f & Hrun & Hf & _ & Hread) _].
  - simpl. lia.
  - reflexivity.
  - intros k. reflexivity.
  - left. reflexivity.
  - exists w', f. split; [exact Hrun|]. split; [exact Hf | exact Hread].
Defined.

(** ** Title extraction *)

Module ETFacts.
Import ET.

Lemma Element_ind' (P : Element -> Prop) :
  (forall t x tl cs, Forall P cs -> P (Elem t x tl cs)) ->
  forall e, P e.
Proof.
  intros H. fix IH 1. intros [t x tl cs]. apply H.
  induction cs as [|c cs IHcs]; constructor; [apply IH | exact IHcs].
Qed.

Lemma iter_unfold (name t : string) (x tl : option string) (cs : list Element) :
  iter name (Elem t x tl cs) =
  (if String.eqb t name then [Elem t x tl cs] else []) ++ flat_map (iter name) cs.
Proof. reflexivity. Qed.

Lemma preorder_unfold (t : string) (x tl : option string) (cs : list Element) :
  preorder (Elem t x tl cs) = Elem t x tl cs :: flat_map preorder cs.
Proof. reflexivity. Qed.

Lemma flat_map_iter (name : string) (cs : list Element) :
  Forall (fun e => iter name e = filter (fun x => tag x = name) (preorder e)) cs ->
  flat_map (iter name) cs = filter (fun x => tag x = name) (flat_map preorder cs).
Proof.
  induction 1 as [|c cs Hc _ IH]; [reflexivity|].
  simpl. now rewrite filter_app, Hc, IH.
Qed.

(** [iter] keeps, in document order, the elements with the tag. *)
Lemma iter_filter (name : string) (e : Element) :
  iter name e = filter (fun x => tag x = name) (preorder e).
Proof.
  induction e as [t x tl cs IH] using Element_ind'.
  rewrite iter_unfold, preorder_unfold, filter_cons.
  rewrite (flat_map_iter name cs IH). simpl tag.
  destruct (String.eqb_spec t name) as [E|E];
    destruct (decide (t = name)); try contradiction; reflexivity.
Qed.

(** The path [.//name] finds the first element with the tag among the
    descendants. *)
Lemma find_descendant_first (name : string) (root : Element) :
  find_descendant name root = first_named name root.
Proof.
  unfold find_descendant, first_named, descendants. f_equal.
  apply flat_map_iter. apply Forall_forall. intros e _. apply iter_filter.
Qed.

End ETFacts.

Lemma parse_xml_content_run (fromstring : string -> exn + ET.Element)
    (content : string) (w : World) :
  parse_xml_content fromstring content w =
  (title_result fromstring content, set_xml_seen w (xml_seen w ++ [content])).
Proof.
  unfold parse_xml_content, try_except, title_result, ET_fromstring,
    mbind, IO_bind, mret, IO_ret, raise.
  destruct (fromstring content) as [e|root].
  - destruct (exn_cls e); reflexivity.
  - destruct (ET.find_descendant "title" root); reflexivity.
Qed.

(** C2, as the code has it: [parse_xml_content] returns the text of
    the first [title] element strictly below the root, in document
    order, as it stands (so nothing, [None], when that element holds
    no text); the literal "无标题" when there is no such element; and
    the literal "XML解析错误" when the parser reports [ParseError]. *)
Theorem parse_xml_content_cases (fromstring : string -> exn + ET.Element)
    (content : string) (w : World) :
  (forall root e,
      fromstring content = inr root ->
      ET.first_named "title" root = Some e ->
      fst (parse_xml_content fromstring content w) = Ok (ET.text e))
  /\ (forall root,
        fromstring content = inr root ->
        ET.first_named "title" root = None ->
        fst (parse_xml_content fromstring content w) = Ok (Some "无标题"))
  /\ (forall ex,
        fromstring content = inl ex ->
        exn_cls ex = ParseError ->
        fst (parse_xml_content fromstring content w) = Ok (Some "XML解析错误")).
Proof.
  rewrite parse_xml_content_run. unfold title_result. simpl fst.
  repeat split.
  - intros root e -> He. rewrite ETFacts.find_descendant_first, He. reflexivity.
  - intros root -> He. rewrite ETFacts.find_descendant_first, He. reflexivity.
  - intros ex -> Hex. now rewrite Hex.
Qed.

(** The three cases on the sample payloads of the specification. *)
Lemma parse_xml_content_cases_witness :
  fst (parse_xml_content XmlLite.fromstring "<msg><title>Hello</title></msg>" sample_world)
    = Ok (Some "Hello")
  /\ fst (parse_xml_content XmlLite.fromstring "<msg></msg>" sample_world)
    = Ok (Some "无标题")
  /\ fst (parse_xml_content XmlLite.fromstring "not-xml<<<" sample_world)
    = Ok (Some "XML解析错误").
Proof.
  split; [|split].
  - apply (proj1 (parse_xml_content_cases XmlLite.fromstring
                    "<msg><title>Hello</title></msg>" sample_world)
             (ET.Elem "msg" None None [ET.Elem "title" (Some "Hello") None []])
             (ET.Elem "title" (Some "Hello") None []));
      vm_compute; reflexivity.
  - apply (proj1 (proj2 (parse_xml_content_cases XmlLite.fromstring
                           "<msg></msg>" sample_world))
             (ET.Elem "msg" None None []));
      vm_compute; reflexivity.
  - apply (proj2 (proj2 (parse_xml_content_cases XmlLite.fromstring
                           "not-xml<<<" sample_world))
             (Exn ParseError "not well-formed"));
      vm_compute; reflexivity.
Defined.

(** A [title] element with no text: the result is [None], not the
    literal "无标题". *)
Lemma parse_xml_content_empty_title :
  XmlLite.parse "<msg><title></title></msg>"
    = XmlLite.Done (ET.Elem "msg" None None [ET.Elem "title" None None []])
  /\ ET.find_descendant "title" (ET.Elem "msg" None None [ET.Elem "title" None None []])
    = Some (ET.Elem "title" None None [])
  /\ fst (parse_xml_content XmlLite.fromstring "<msg><title></title></msg>" sample_world)
    = Ok None
  /\ fst (parse_xml_content XmlLite.fromstring "<msg><title></title></msg>" sample_world)
    <> Ok (Some "无标题").
Proof.
  repeat split; try (vm_compute; reflexivity).
  vm_compute. discriminate.
Qed.

(** A document whose root is the [title] element: the root is not
    below itself, so the literal comes back. *)
Example parse_xml_content_root_title :
  fst (parse_xml_content XmlLite.fromstring "<title>Hello</title>" sample_world)
  = Ok (Some "无标题").
Proof. vm_compute. reflexivity. Qed.

(** ** The pipeline *)

(** C10: the option [date_format] is loaded and never read: changing
    it alone changes nothing in what [save_message_to_csv] and
    [msg_cb] do, so the directory and the file resolved for a message
    at a given time are the same. *)
Theorem date_format_never_read (fromstring : string -> exn + ET.Element)
    (config : Config) (fmt : string) (message : Msg) (w : World) :
  save_message_to_csv fromstring (set_date_format config fmt) message w
    = save_message_to_csv fromstring config message w
  /\ msg_cb fromstring (set_date_format config fmt) message w
    = msg_cb fromstring config message w.
Proof. split; reflexivity. Qed.

Lemma ineligible_true (config : Config) (message : Msg) :
  type message ∉ accepted_types config
  \/ chatroom_id_to_name config !! roomid message = None ->
  ineligible config message = true.
Proof.
  intros [H|H]; unfold ineligible.
  - now rewrite bool_decide_eq_false_2.
  - rewrite H. rewrite (bool_decide_eq_false_2 (is_Some None)).
    + apply orb_true_r.
    + intros [x Hx]. discriminate.
Qed.

(** C4: a message whose type is not accepted, or whose room is not in
    the mapping, is skipped: [save_message_to_csv] returns at once and
    the world is what it was (no directory, no file, no byte, no log
    record), and the caller gets the acknowledgement. *)
Theorem ineligible_skipped (fromstring : string -> exn + ET.Element)
    (config : Config) (message : Msg) (w : World) :
  type message ∉ accepted_types config
  \/ chatroom_id_to_name config !! roomid message = None ->
  save_message_to_csv fromstring config message w = (Ok tt, w)
  /\ msg_cb fromstring config message w = (Returned 0 "成功", w).
Proof.
  intros H. apply ineligible_true in H.
  unfold msg_cb, save_message_to_csv, try_except, save_body.
  rewrite H. split; reflexivity.
Qed.

Lemma ineligible_skipped_witness :
  chatroom_id_to_name sample_config !! roomid stranger = None
  /\ save_message_to_csv XmlLite.fromstring sample_config stranger sample_world
     = (Ok tt, sample_world)
  /\ msg_cb XmlLite.fromstring sample_config stranger sample_world
     = (Returned 0 "成功", sample_world).
Proof.
  assert (H : chatroom_id_to_name sample_config !! roomid stranger = None)
    by (vm_compute; reflexivity).
  split; [exact H|].
  apply (ineligible_skipped XmlLite.fromstring sample_config stranger sample_world).
  right. exact H.
Defined.

(** C1, on the code: for a shared article in a group the header has
    five names and the row four values: type, sender, the title (or
    the content when the title is empty), extra.  The content slot is
    missing. *)
Theorem title_row_has_four_fields :
  (exists f,
      files (snd (msg_cb XmlLite.fromstring sample_config article sample_world))
        !! "./Team A/20240305/messages_2024030514.csv" = Some f
      /\ Csv.reader (text f) =
         Some [["type"; "sender"; "title"; "content"; "extra"];
               ["49"; "wxid_a"; "Hello"; "ext"]])
  /\ (forall (message : Msg) (title_content : option string),
        length (data message title_content) = 4%nat).
Proof.
  split; [|reflexivity].
  eexists. split; vm_compute; reflexivity.
Qed.

Module PipelineFacts.
Import IOFacts.

Section WithProgram.
Variable fromstring : string -> exn + ET.Element.
Variable config : Config.

(** [log_and_print] when [config.log_level] names a level: one log
    record, and a printed line (with a reading of the clock) when the
    message holds "Message saved" and the standard output takes the
    line; nothing else moves. *)
Lemma log_and_print_ok (msg room : string) (message : Msg) (w : World) (lvl : Z) :
  level_of config = Some lvl ->
  (Str.contains "Message saved" msg = true -> faults w (ops w) = None) ->
  exists w',
    log_and_print config msg room message w = (Ok tt, w')
    /\ log_records w' = log_records w ++ [(lvl, msg)]
    /\ files w' = files w /\ dirs w' = dirs w
    /\ ops w' = (if Str.contains "Message saved" msg then S (ops w) else ops w)
    /\ faults w' = faults w /\ xml_seen w' = xml_seen w.
Proof.
  unfold level_of, log_and_print, getattr_logging. intros H Hp.
  destruct (logging_attr (upper (log_level config))) as [[z|]|]; try discriminate.
  injection H as ->.
  destruct (Str.contains "Message saved" msg).
  - run_io (Hp eq_refl). eexists. repeat split; reflexivity.
  - run_io Hp. eexists. repeat split; reflexivity.
Qed.

(** The same when the standard output refuses the line: the record is
    in the log, and the refusal is raised. *)
Lemma log_and_print_refused (msg room : string) (message : Msg) (w : World)
    (lvl : Z) (e : exn) :
  level_of config = Some lvl ->
  Str.contains "Message saved" msg = true ->
  faults w (ops w) = Some e ->
  exists w',
    log_and_print config msg room message w = (Raise e, w')
    /\ log_records w' = log_records w ++ [(lvl, msg)]
    /\ files w' = files w /\ dirs w' = dirs w /\ ops w' = S (ops w)
    /\ faults w' = faults w /\ xml_seen w' = xml_seen w.
Proof.
  unfold level_of, log_and_print, getattr_logging. intros H Hc Hp.
  destruct (logging_attr (upper (log_level config))) as [[z|]|]; try discriminate.
  injection H as ->. rewrite Hc.
  run_io Hp. eexists. repeat split; reflexivity.
Qed.

(** Whether the line is printed or not, the record is in the log. *)
Lemma log_and_print_logs (msg room : string) (message : Msg) (w : World) (lvl : Z) :
  level_of config = Some lvl ->
  log_records (snd (log_and_print config msg room message w))
  = log_records w ++ [(lvl, msg)].
Proof.
  intros H.
  destruct (Str.contains "Message saved" msg) eqn:Hc.
  - destruct (faults w (ops w)) as [e|] eqn:Hp.
    + destruct (log_and_print_refused msg room message w lvl e H Hc Hp)
        as (w' & -> & Hl & _). exact Hl.
    + destruct (log_and_print_ok msg room message w lvl H (fun _ => Hp))
        as (w' & -> & Hl & _). exact Hl.
  - destruct (log_and_print_ok msg room message w lvl H) as (w' & -> & Hl & _);
      [rewrite Hc; discriminate | exact Hl].
Qed.

Lemma save_handler_log_and_print (message : Msg) (e : exn) :
  save_handler config message e
  = log_and_print config (error_message e)
      (default "" (chatroom_id_to_name config !! roomid message)) message.
Proof. unfold save_handler, error_message. destruct (exn_cls e); reflexivity. Qed.

Lemma save_handler_ok (message : Msg) (e : exn) (w : World) (lvl : Z) :
  level_of config = Some lvl ->
  (Str.contains "Message saved" (error_message e) = true -> faults w (ops w) = None) ->
  exists w',
    save_handler config message e w = (Ok tt, w')
    /\ log_records w' = log_records w ++ [(lvl, error_message e)]
    /\ files w' = files w /\ dirs w' = dirs w
    /\ ops w' = (if Str.contains "Message saved" (error_message e)
                then S (ops w) else ops w)
    /\ faults w' = faults w /\ xml_seen w' = xml_seen w.
Proof.
  intros H Hp. rewrite save_handler_log_and_print.
  apply log_and_print_ok; assumption.
Qed.

Lemma ineligible_false (message : Msg) :
  ineligible config message = false ->
  type message ∈ accepted_types config
  /\ exists room, chatroom_id_to_name config !! roomid message = Some room.
Proof.
  unfold ineligible. intros H. apply orb_false_iff in H as [H1 H2].
  apply negb_false_iff in H1, H2.
  apply bool_decide_eq_true_1 in H1, H2. split; [exact H1|].
  destruct H2 as [room Hr]. now exists room.
Qed.

Lemma eligible_false (message : Msg) (room : string) :
  type message ∈ accepted_types config ->
  chatroom_id_to_name config !! roomid message = Some room ->
  ineligible config message = false.
Proof.
  intros H1 H2. unfold ineligible.
  rewrite (bool_decide_eq_true_2 _ H1).
  rewrite (bool_decide_eq_true_2 (is_Some _)) by (rewrite H2; eauto).
  reflexivity.
Qed.

(** The directory step: nothing to do when the path is there, one
    operation otherwise. *)
Lemma ensure_folder_calm (fp : string) (w : World) :
  calm w ->
  exists w',
    (if negb (exists_in w fp) then os_makedirs fp else mret tt) w = (Ok tt, w')
    /\ exists_in w' fp = true
    /\ files w' = files w /\ faults w' = faults w /\ ticks w' = ticks w
    /\ clock w' = clock w /\ xml_seen w' = xml_seen w
    /\ log_records w' = log_records w.
Proof.
  intros Hc. unfold exists_in.
  destruct (bool_decide (fp ∈ dirs w) || bool_decide (is_Some (files w !! fp))) eqn:E.
  - exists w. simpl. rewrite E. repeat split; reflexivity.
  - apply orb_false_iff in E as [E1 E2].
    simpl negb. run_io Hc. rewrite E1.
    eexists. split; [reflexivity|]. simpl.
    repeat split; try reflexivity.
    rewrite bool_decide_eq_true_2 by set_solver. reflexivity.
Qed.

Lemma os_makedirs_made (fp : string) (w : World) :
  exists_in w fp = false -> faults w (ops w) = None ->
  os_makedirs fp w
  = (Ok tt, set_dirs (set_ops w (S (ops w)))
              (dirs w ∪ {[ fp ]} ∪ list_to_set (dir_prefixes "" fp))).
Proof.
  intros E Hp. apply orb_false_iff in E as [E1 E2].
  run_io Hp. now rewrite E1.
Qed.

Lemma os_makedirs_refused (fp : string) (w : World) (e : exn) :
  faults w (ops w) = Some e ->
  os_makedirs fp w = (Raise e, set_ops w (S (ops w))).
Proof. intros Hp. now run_io Hp. Qed.

Lemma title_step_run (message : Msg) (w : World) :
  (if wants_title message then parse_xml_content fromstring (content message)
   else mret (Some "")) w =
  (title_step fromstring message,
   if wants_title message then set_xml_seen w (xml_seen w ++ [content message]) else w).
Proof.
  unfold title_step. destruct (wants_title message).
  - apply parse_xml_content_run.
  - reflexivity.
Qed.

(** A whole run with nothing failing, in append mode. *)
Lemma save_body_calm (message : Msg) (w : World) (room : string) (lvl : Z)
    (tc : option string) :
  type message ∈ accepted_types config ->
  chatroom_id_to_name config !! roomid message = Some room ->
  calm w ->
  file_write_mode config = "a" ->
  level_of config = Some lvl ->
  title_step fromstring message = Ok tc ->
  let t0 := clock w (ticks w) in
  let fp := folder_path room t0 in
  let fn := file_name fp t0 in
  exists w',
    save_body fromstring config message w = (Ok tt, w')
    /\ files w' =
       <[fn := appended (file_encoding config) (header message) (data message tc)
                 (default empty_file (files w !! fn))]> (files w)
    /\ exists_in w' fp = true
    /\ xml_seen w' =
       (if wants_title message then xml_seen w ++ [content message] else xml_seen w)
    /\ log_records w' = log_records w ++ [(lvl, "[INFO] Message saved")].
Proof.
  intros Hty Hroom Hc Hm Hlvl Htc t0 fp fn.
  unfold save_body. rewrite (eligible_false message room Hty Hroom), Hroom.
  simpl default.
  erewrite bind_ok by reflexivity.
  fold t0. fold fp. fold fn.
  erewrite bind_ok by reflexivity.
  fold (exists_in (set_ticks w (S (ticks w))) fp).
  destruct (ensure_folder_calm fp (set_ticks w (S (ticks w))))
    as (w1 & Hrun1 & Hex1 & Hf1 & Hfa1 & Ht1 & Hcl1 & Hx1 & Hl1);
    [intros k; apply Hc|].
  simpl in Hf1, Hfa1, Ht1, Hcl1, Hx1, Hl1.
  erewrite bind_ok by exact Hrun1.
  erewrite bind_ok by (rewrite title_step_run, Htc; reflexivity).
  set (w2 := if wants_title message
             then set_xml_seen w1 (xml_seen w1 ++ [content message]) else w1).
  assert (Hc2 : calm w2).
  { intros k. unfold w2. destruct (wants_title message); simpl; rewrite Hfa1; apply Hc. }
  destruct (write_to_csv_calm config fn (header message) (data message tc) w2 Hc2 Hm)
    as [n Hw].
  erewrite bind_ok by exact Hw.
  set (w3 := set_files _ _).
  destruct (log_and_print_ok "[INFO] Message saved" room message w3 lvl Hlvl)
    as (w4 & Hrun4 & Hl4 & Hf4 & Hd4 & Ho4 & Hfa4 & Hx4);
    [intros _; apply Hc2|].
  exists w4. split; [exact Hrun4|].
  assert (Hf2 : files w2 = files w)
    by (unfold w2; destruct (wants_title message); simpl; exact Hf1).
  repeat split.
  - rewrite Hf4. unfold w3; simpl. now rewrite Hf2.
  - unfold exists_in in *. rewrite Hd4, Hf4. unfold w3; simpl.
    apply orb_true_iff in Hex1 as [H|H]; apply orb_true_iff.
    + left. unfold w2. destruct (wants_title message); exact H.
    + right. apply bool_decide_eq_true_1 in H. apply bool_decide_eq_true_2.
      rewrite Hf2, <- Hf1.
      destruct (decide (fn = fp)) as [->|Hne];
        [rewrite lookup_insert_eq; eauto | now rewrite lookup_insert_ne].
  - rewrite Hx4. unfold w3, w2; simpl.
    destruct (wants_title message); simpl; now rewrite Hx1.
  - rewrite Hl4. unfold w3, w2; simpl.
    destruct (wants_title message); simpl; now rewrite Hl1.
Qed.

(** The operation number [k] of [storage_ops] being refused, the
    ones before going through, makes the body raise that refusal, with
    nothing attempted after it and nothing logged. *)
Lemma save_body_refused_at (message : Msg) (w : World) (k : nat) (op : storage_op)
    (e : exn) (tc : option string) :
  ineligible config message = false ->
  file_write_mode config = "a" ->
  title_step fromstring message = Ok tc ->
  storage_ops config message w !! k = Some op ->
  (forall j, (j < k)%nat -> faults w (ops w + j) = None) ->
  faults w (ops w + k) = Some e ->
  exists w1,
    save_body fromstring config message w = (Raise e, w1)
    /\ ops w1 = (ops w + S k)%nat /\ faults w1 = faults w
    /\ log_records w1 = log_records w.
Proof.
  intros Hel Hm Htc Hop Hbefore Hat.
  apply lookup_lt_Some in Hop. unfold storage_ops in Hop.
  unfold save_body. rewrite Hel.
  set (room := default "" (chatroom_id_to_name config !! roomid message)) in *.
  erewrite bind_ok by reflexivity.
  set (t0 := clock w (ticks w)) in *.
  set (fp := folder_path room t0) in *.
  set (fn := file_name fp t0) in *.
  set (w0 := set_ticks w (S (ticks w))).
  erewrite bind_ok by reflexivity.
  fold (exists_in w0 fp).
  change (exists_in w fp) with (exists_in w0 fp) in Hop.
  rewrite !length_app in Hop.
  assert (Hrest : forall (w2 : World) (k' : nat),
    faults w2 = faults w -> files w2 = files w -> log_records w2 = log_records w ->
    (ops w <= ops w2)%nat -> (ops w2 + k' = ops w + k)%nat ->
    (k' < 2 + (if (size (default empty_file (files w !! fn)) =? 0)%nat then 1 else 0))%nat ->
    exists w1,
      (write_to_csv config fn (header message) (data message tc) ≫= fun _ =>
         log_and_print config "[INFO] Message saved" room message) w2 = (Raise e, w1)
      /\ ops w1 = (ops w + S k)%nat /\ faults w1 = faults w
      /\ log_records w1 = log_records w).
  { intros w2 k' Hfa2 Hf2 Hl2 Hle Ho2 Hk'.
    destruct (write_to_csv_refused config fn (header message) (data message tc) w2 k' e Hm)
      as (w1 & Hrun & Ho & Hfa & _ & Hl).
    - now rewrite Hf2.
    - intros j Hj. rewrite Hfa2.
      replace (ops w2 + j)%nat with (ops w + (k - k' + j))%nat by lia.
      apply Hbefore. lia.
    - rewrite Hfa2, Ho2. exact Hat.
    - erewrite bind_raise by exact Hrun. exists w1.
      split; [reflexivity|]. split; [lia|]. split; congruence. }
  destruct (exists_in w0 fp) eqn:Hex.
  - erewrite bind_ok by reflexivity.
    erewrite bind_ok by (rewrite title_step_run, Htc; reflexivity).
    apply (Hrest _ k);
      try (destruct (wants_title message); reflexivity).
    revert Hop. simpl.
    destruct (size (default empty_file (files w !! fn)) =? 0)%nat; simpl; lia.
  - destruct k as [|k].
    + rewrite Nat.add_0_r in Hat.
      erewrite bind_raise by (apply (os_makedirs_refused fp w0 e); exact Hat).
      eexists. split; [reflexivity|]. simpl. repeat split; lia.
    + pose proof (Hbefore 0%nat ltac:(lia)) as H0. rewrite Nat.add_0_r in H0.
      erewrite bind_ok by (apply (os_makedirs_made fp w0); [exact Hex | exact H0]).
      erewrite bind_ok by (rewrite title_step_run, Htc; reflexivity).
      apply (Hrest _ k);
        try (destruct (wants_title message); reflexivity).
      * destruct (wants_title message); simpl; lia.
      * destruct (wants_title message); simpl; lia.
      * revert Hop. simpl.
        destruct (size (default empty_file (files w !! fn)) =? 0)%nat; simpl; lia.
Qed.

(** *** Computations that never call the parser *)

Lemma keeps_bind {A B} (m : IO A) (k : A -> IO B) :
  keeps_xml m -> (forall a, keeps_xml (k a)) -> keeps_xml (m ≫= k).
Proof.
  intros Hm Hk w. unfold mbind, IO_bind.
  specialize (Hm w). destruct (m w) as [[a|e] w1]; simpl in *.
  - now rewrite Hk.
  - exact Hm.
Qed.

Lemma keeps_try {A} (m : IO A) (h : exn -> IO A) :
  keeps_xml m -> (forall e, keeps_xml (h e)) -> keeps_xml (try_except m h).
Proof.
  intros Hm Hh w. unfold try_except.
  specialize (Hm w). destruct (m w) as [[a|e] w1]; simpl in *.
  - exact Hm.
  - now rewrite Hh.
Qed.

Lemma keeps_mret {A} (a : A) : keeps_xml (mret a).
Proof. intros w. reflexivity. Qed.

Lemma keeps_raise {A} (e : exn) : keeps_xml (raise (A := A) e).
Proof. intros w. reflexivity. Qed.

Lemma keeps_attempt : keeps_xml attempt.
Proof. intros w. unfold attempt. destruct (faults w (ops w)); reflexivity. Qed.

Lemma keeps_datetime_now : keeps_xml datetime_now.
Proof. intros w. reflexivity. Qed.

Lemma keeps_os_path_exists (p : string) : keeps_xml (os_path_exists p).
Proof. intros w. reflexivity. Qed.

Lemma keeps_os_makedirs (p : string) : keeps_xml (os_makedirs p).
Proof.
  apply keeps_bind; [apply keeps_attempt|]. intros _ w. unfold mkdirs.
  destruct (bool_decide (p ∈ dirs w)); reflexivity.
Qed.

Lemma keeps_open_ (fn mode enc : string) : keeps_xml (open_ fn mode enc).
Proof.
  apply keeps_bind; [apply keeps_attempt|]. intros _ w. unfold open_file.
  repeat (match goal with
          | |- context [if ?b then _ else _] => destruct b
          | |- context [match ?x with Some _ => _ | None => _ end] => destruct x
          end; try reflexivity).
Qed.

Lemma keeps_write (file : TextFile) (s : string) : keeps_xml (write file s).
Proof.
  unfold write. destruct (f_writable file); [|apply keeps_raise].
  apply keeps_bind; [apply keeps_attempt|]. intros _ w. reflexivity.
Qed.

Lemma keeps_write_to_csv (fn : string) (h d : list string) :
  keeps_xml (write_to_csv config fn h d).
Proof.
  unfold write_to_csv.
  apply keeps_bind; [apply keeps_open_|]. intros file.
  apply keeps_bind; [intros w; reflexivity|]. intros pos.
  apply keeps_bind; [|intros _; apply keeps_write].
  destruct (pos =? 0)%nat; [apply keeps_write | apply keeps_mret].
Qed.

Lemma keeps_log_and_print (msg room : string) (message : Msg) :
  keeps_xml (log_and_print config msg room message).
Proof.
  unfold log_and_print.
  apply keeps_bind.
  { unfold getattr_logging. destruct (logging_attr _);
      [apply keeps_mret | apply keeps_raise]. }
  intros v. apply keeps_bind.
  { destruct v; [intros w; reflexivity | apply keeps_raise]. }
  intros _. destruct (Str.contains _ _); [|apply keeps_mret].
  apply keeps_bind; [apply keeps_datetime_now|]. intros now.
  apply keeps_bind; [apply keeps_attempt|]. intros _ w. reflexivity.
Qed.

(** Without the title shape, a run never calls the parser, whatever
    else happens. *)
Lemma save_keeps_xml (message : Msg) :
  wants_title message = false ->
  keeps_xml (save_message_to_csv fromstring config message).
Proof.
  intros Hw. unfold save_message_to_csv. apply keeps_try.
  - unfold save_body. rewrite Hw.
    destruct (ineligible config message); [apply keeps_mret|].
    apply keeps_bind; [apply keeps_datetime_now|]. intros t.
    apply keeps_bind; [apply keeps_os_path_exists|]. intros there.
    apply keeps_bind.
    { destruct (negb there); [apply keeps_os_makedirs | apply keeps_mret]. }
    intros _. apply keeps_bind; [apply keeps_mret|]. intros tc.
    apply keeps_bind; [apply keeps_write_to_csv|]. intros _.
    apply keeps_log_and_print.
  - intros e. unfold save_handler.
    destruct (exn_cls e); apply keeps_log_and_print.
Qed.

End WithProgram.

End PipelineFacts.

(** C3, as the code has it: when the creation of the directory, the
    opening of the file or a write (of the header, of the row) raises
    while an eligible message is being stored, [save_message_to_csv]
    catches that very exception in its own [except] clauses, logs one
    error record and returns, and nothing is attempted again; the
    record is the fixed text "[ERROR] File not found" for
    [FileNotFoundError], "[ERROR] CSV error: " with [str(e)] for
    [csv.Error], "[ERROR] An error occurred: " with [str(e)] for any
    other exception; and [msg_cb] returns the success
    acknowledgement, not a server error.  This holds with
    [config.log_level] naming a logging level, as by default, and,
    should the record itself hold "Message saved" (so that
    [log_and_print] prints as well), with the standard output taking
    the line: a refusal of that print is the only way to a server
    error. *)
Theorem storage_failure_logged (fromstring : string -> exn + ET.Element)
    (config : Config) (message : Msg) (w : World) (lvl : Z) :
  ineligible config message = false ->
  level_of config = Some lvl ->
  (forall (k : nat) (op : storage_op) (e : exn) (tc : option string),
      file_write_mode config = "a" ->
      title_step fromstring message = Ok tc ->
      storage_ops config message w !! k = Some op ->
      (forall j, (j < k)%nat -> faults w (ops w + j) = None) ->
      faults w (ops w + k) = Some e ->
      (Str.contains "Message saved" (error_message e) = true ->
       faults w (ops w + S k) = None) ->
      exists w1 w2,
        save_body fromstring config message w = (Raise e, w1)
        /\ ops w1 = (ops w + S k)%nat
        /\ save_message_to_csv fromstring config message w = (Ok tt, w2)
        /\ msg_cb fromstring config message w = (Returned 0 "成功", w2)
        /\ log_records w2 = log_records w ++ [(lvl, error_message e)]
        /\ files w2 = files w1 /\ dirs w2 = dirs w1
        /\ (Str.contains "Message saved" (error_message e) = false ->
            ops w2 = (ops w + S k)%nat))
  /\ (forall (e : exn) (w1 : World),
        save_body fromstring config message w = (Raise e, w1) ->
        (Str.contains "Message saved" (error_message e) = true ->
         faults w1 (ops w1) = None) ->
        exists w2,
          save_message_to_csv fromstring config message w = (Ok tt, w2)
          /\ msg_cb fromstring config message w = (Returned 0 "成功", w2)
          /\ log_records w2 = log_records w1 ++ [(lvl, error_message e)]
          /\ files w2 = files w1 /\ dirs w2 = dirs w1
          /\ ops w2 = (if Str.contains "Message saved" (error_message e)
                       then S (ops w1) else ops w1))
  /\ (forall (c : Z) (d : string) (w' : World),
        msg_cb fromstring config message w = (HTTPException c d, w') ->
        exists e w1 e',
          save_body fromstring config message w = (Raise e, w1)
          /\ Str.contains "Message saved" (error_message e) = true
          /\ faults w1 (ops w1) = Some e'
          /\ c = 500 /\ d = exn_str e').
Proof.
  intros Hel Hlvl.
  assert (Hcaught : forall e w1,
    save_body fromstring config message w = (Raise e, w1) ->
    (Str.contains "Message saved" (error_message e) = true ->
     faults w1 (ops w1) = None) ->
    exists w2,
      save_message_to_csv fromstring config message w = (Ok tt, w2)
      /\ msg_cb fromstring config message w = (Returned 0 "成功", w2)
      /\ log_records w2 = log_records w1 ++ [(lvl, error_message e)]
      /\ files w2 = files w1 /\ dirs w2 = dirs w1
      /\ ops w2 = (if Str.contains "Message saved" (error_message e)
                   then S (ops w1) else ops w1)).
  { intros e w1 Hbody Hp.
    destruct (PipelineFacts.save_handler_ok config message e w1 lvl Hlvl Hp)
      as (w2 & Hh & Hl & Hf & Hd & Ho & _).
    assert (Hs : save_message_to_csv fromstring config message w = (Ok tt, w2))
      by (unfold save_message_to_csv, try_except; now rewrite Hbody).
    exists w2. unfold msg_cb. rewrite Hs. repeat split; assumption. }
  split; [|split; [exact Hcaught|]].
  - intros k op e tc Hm Htc Hop Hbefore Hat Hp.
    destruct (PipelineFacts.save_body_refused_at fromstring config message w k op e tc
                Hel Hm Htc Hop Hbefore Hat) as (w1 & Hbody & Ho1 & Hfa1 & Hl1).
    destruct (Hcaught e w1 Hbody) as (w2 & Hs & Hcb & Hl & Hf & Hd & Ho).
    { intros Hc. rewrite Hfa1, Ho1. apply Hp, Hc. }
    exists w1, w2. repeat split; try assumption.
    + now rewrite Hl, Hl1.
    + intros Hc. rewrite Hc in Ho. now rewrite Ho.
  - intros c d w' Hcb.
    destruct (save_body fromstring config message w) as [[[]|e] w1] eqn:Hbody.
    { unfold msg_cb, save_message_to_csv, try_except in Hcb.
      rewrite Hbody in Hcb. discriminate. }
    destruct (Str.contains "Message saved" (error_message e)) eqn:Hc.
    + destruct (faults w1 (ops w1)) as [e'|] eqn:Hp.
      * destruct (PipelineFacts.log_and_print_refused config (error_message e)
                    (default "" (chatroom_id_to_name config !! roomid message))
                    message w1 lvl e' Hlvl Hc Hp) as (w2 & Hrun & _).
        unfold msg_cb, save_message_to_csv, try_except in Hcb.
        rewrite Hbody, PipelineFacts.save_handler_log_and_print, Hrun in Hcb.
        injection Hcb as <- <- _. exists e, w1, e'. repeat split; assumption.
      * destruct (Hcaught e w1 eq_refl (fun _ => Hp)) as (w2 & _ & Hcb' & _).
        rewrite Hcb' in Hcb. discriminate.
    + destruct (Hcaught e w1 eq_refl) as (w2 & _ & Hcb' & _);
        [rewrite Hc; discriminate|].
      rewrite Hcb' in Hcb. discriminate.
Qed.

Lemma storage_failure_logged_witness :
  storage_ops sample_config article refusing_world
    = [MakeDirs; OpenFile; WriteHeader; WriteRow]
  /\ (exists w1 w2,
        save_body XmlLite.fromstring sample_config article refusing_world
          = (Raise (Exn OtherException "[Errno 13] Permission denied: './Team A/20240305/'"),
             w1)
        /\ ops w1 = 1%nat
        /\ msg_cb XmlLite.fromstring sample_config article refusing_world
           = (Returned 0 "成功", w2)
        /\ log_records w2 =
           [(20, "[ERROR] An error occurred: [Errno 13] Permission denied: './Team A/20240305/'")]
        /\ files w2 = files w1 /\ ops w2 = 1%nat)
  /\ (exists w1 w2,
        save_body XmlLite.fromstring sample_config article full_disk_world
          = (Raise (Exn OtherException "[Errno 28] No space left on device"), w1)
        /\ ops w1 = 4%nat
        /\ msg_cb XmlLite.fromstring sample_config article full_disk_world
           = (Returned 0 "成功", w2)
        /\ log_records w2 =
           [(20, "[ERROR] An error occurred: [Errno 28] No space left on device")]
        /\ files w2 = files w1 /\ ops w2 = 4%nat).
Proof.
  assert (Hops : storage_ops sample_config article refusing_world
                 = [MakeDirs; OpenFile; WriteHeader; WriteRow])
    by (vm_compute; reflexivity).
  assert (Htc : title_step XmlLite.fromstring article = Ok (Some "Hello"))
    by (vm_compute; reflexivity).
  assert (Hop : storage_ops sample_config article refusing_world !! 0%nat = Some MakeDirs)
    by (rewrite Hops; reflexivity).
  assert (Hquiet : Str.contains "Message saved"
            (error_message
               (Exn OtherException "[Errno 13] Permission denied: './Team A/20240305/'"))
            = false)
    by (vm_compute; reflexivity).
  assert (Hop' : storage_ops sample_config article full_disk_world !! 3%nat = Some WriteRow)
    by (vm_compute; reflexivity).
  assert (Hquiet' : Str.contains "Message saved"
            (error_message (Exn OtherException "[Errno 28] No space left on device"))
            = false)
    by (vm_compute; reflexivity).
  split; [exact Hops|]. split.
  - destruct (proj1 (storage_failure_logged XmlLite.fromstring sample_config article
                       refusing_world 20 eq_refl eq_refl)
                0%nat MakeDirs
                (Exn OtherException "[Errno 13] Permission denied: './Team A/20240305/'")
                (Some "Hello") eq_refl Htc Hop)
      as (w1 & w2 & Hb & Ho1 & _ & Hcb & Hl & Hf & _ & Ho2).
    + intros j Hj. lia.
    + reflexivity.
    + rewrite Hquiet. discriminate.
    + exists w1, w2. split; [exact Hb|]. split; [exact Ho1|]. split; [exact Hcb|].
      split; [exact Hl|]. split; [exact Hf | exact (Ho2 Hquiet)].
  - destruct (proj1 (storage_failure_logged XmlLite.fromstring sample_config article
                       full_disk_world 20 eq_refl eq_refl)
                3%nat WriteRow
                (Exn OtherException "[Errno 28] No space left on device")
                (Some "Hello") eq_refl Htc Hop')
      as (w1 & w2 & Hb & Ho1 & _ & Hcb & Hl & Hf & _ & Ho2).
    + intros [|[|[|j]]] Hj; [reflexivity | reflexivity | reflexivity | lia].
    + reflexivity.
    + rewrite Hquiet'. discriminate.
    + exists w1, w2. split; [exact Hb|]. split; [exact Ho1|]. split; [exact Hcb|].
      split; [exact Hl|]. split; [exact Hf | exact (Ho2 Hquiet')].
Defined.

(** A refused directory creation: the caller still gets the
    acknowledgement, not a server error with the detail. *)
Lemma refused_makedirs_acknowledged :
  fst (save_body XmlLite.fromstring sample_config article refusing_world)
    = Raise (Exn OtherException "[Errno 13] Permission denied: './Team A/20240305/'")
  /\ fst (msg_cb XmlLite.fromstring sample_config article refusing_world)
    = Returned 0 "成功"
  /\ fst (msg_cb XmlLite.fromstring sample_config article refusing_world)
    <> HTTPException 500 "[Errno 13] Permission denied: './Team A/20240305/'".
Proof.
  repeat split; try (vm_compute; reflexivity).
  vm_compute. discriminate.
Qed.

(** ** Date stamps *)

Module StampFacts.

Lemma decimal_length_in (lo len k : nat) :
  forallb (fun n => (String.length (decimal (Z.of_nat n)) =? k)%nat) (seq lo len) = true ->
  forall z : Z, Z.of_nat lo <= z < Z.of_nat (lo + len) ->
  String.length (decimal z) = k.
Proof.
  intros H z Hz. rewrite forallb_forall in H.
  specialize (H (Z.to_nat z)). rewrite Z2Nat.id in H by lia.
  apply Nat.eqb_eq, H, in_seq. lia.
Qed.

Lemma year_digits (y : Z) : 1000 <= y <= 9999 -> String.length (decimal y) = 4%nat.
Proof.
  intros H.
  apply (decimal_length_in (Z.to_nat 1000) (Z.to_nat 9000) 4);
    [vm_compute; reflexivity | lia].
Qed.

Lemma pad0_2_length (n : Z) : 0 <= n <= 99 -> String.length (pad0 2 n) = 2%nat.
Proof.
  intros H.
  assert (Hall : forallb (fun k => (String.length (pad0 2 (Z.of_nat k)) =? 2)%nat)
                   (seq 0 100) = true) by (vm_compute; reflexivity).
  rewrite forallb_forall in Hall.
  specialize (Hall (Z.to_nat n)). rewrite Z2Nat.id in Hall by lia.
  apply Nat.eqb_eq, Hall, in_seq. lia.
Qed.

Lemma pad0_year (y : Z) : 1000 <= y <= 9999 -> pad0 1 y = pad0 4 y.
Proof.
  intros H. unfold pad0. now rewrite (year_digits y H).
Qed.

Lemma strftime_Ymd (t : datetime) :
  strftime "%Y%m%d" t = pad0 1 (year t) +:+ pad0 2 (month t) +:+ pad0 2 (day t).
Proof.
  cbn. unfold directive; simpl. now rewrite StrFacts.append_nil_r.
Qed.

Lemma strftime_YmdH (t : datetime) :
  strftime "%Y%m%d%H" t =
  pad0 1 (year t) +:+ pad0 2 (month t) +:+ pad0 2 (day t) +:+ pad0 2 (hour t).
Proof.
  cbn. unfold directive; simpl. now rewrite StrFacts.append_nil_r.
Qed.

Lemma YYYYMMDD_length (t : datetime) :
  wall_clock t -> String.length (YYYYMMDD t) = 8%nat.
Proof.
  intros [(Hy & Hm & Hd & _) Hy']. unfold YYYYMMDD.
  rewrite !StrFacts.length_append, !pad0_2_length by lia.
  rewrite <- pad0_year by lia. unfold pad0.
  rewrite StrFacts.length_append, year_digits by lia. reflexivity.
Qed.

End StampFacts.

(** ** Shapes and paths *)

Lemma wants_title_false (message : Msg) :
  type message <> 49 \/ is_group message = false -> wants_title message = false.
Proof.
  unfold wants_title. intros [H|H].
  - apply Z.eqb_neq in H. now rewrite H.
  - rewrite H. apply andb_false_r.
Qed.

(** C5: for an eligible message that is not a shared article in a
    group, the header is [type, sender, content, extra]; the parser is
    never called, whatever else happens; and when nothing fails the
    target file gains (after the header, if the file was empty) the
    row of the four values type, sender, raw content, extra. *)
Theorem four_field_row (fromstring : string -> exn + ET.Element)
    (config : Config) (message : Msg) (w : World) (room : string) :
  type message ∈ accepted_types config ->
  chatroom_id_to_name config !! roomid message = Some room ->
  type message <> 49 \/ is_group message = false ->
  header message = ["type"; "sender"; "content"; "extra"]
  /\ xml_seen (snd (save_message_to_csv fromstring config message w)) = xml_seen w
  /\ (calm w -> file_write_mode config = "a" -> is_Some (level_of config) ->
      let t0 := clock w (ticks w) in
      let fn := file_name (folder_path room t0) t0 in
      let f0 := default empty_file (files w !! fn) in
      let row := [str_int (type message); sender message; content message; extra message] in
      exists w' f,
        save_message_to_csv fromstring config message w = (Ok tt, w')
        /\ files w' !! fn = Some f
        /\ text f = text f0
                    +:+ (if (size f0 =? 0)%nat
                         then Csv.writerow ["type"; "sender"; "content"; "extra"] else "")
                    +:+ Csv.writerow row
        /\ Csv.reader (Csv.writerow row) = Some [row]
        /\ length row = 4%nat).
Proof.
  intros Hty Hroom Hshape. apply wants_title_false in Hshape.
  assert (Hh : header message = ["type"; "sender"; "content"; "extra"])
    by (unfold header; now rewrite Hshape).
  split; [exact Hh|]. split.
  - apply PipelineFacts.save_keeps_xml, Hshape.
  - intros Hc Hm [lvl Hlvl] t0 fn f0 row.
    destruct (PipelineFacts.save_body_calm fromstring config message w room lvl (Some "")
                Hty Hroom Hc Hm Hlvl) as (w' & Hrun & Hf & _).
    { unfold title_step. now rewrite Hshape. }
    exists w', (appended (file_encoding config) (header message)
                  (data message (Some "")) f0).
    split; [unfold save_message_to_csv, try_except; now rewrite Hrun|].
    split; [rewrite Hf; apply lookup_insert_eq|].
    split; [unfold appended; simpl; now rewrite Hh|].
    split; [apply CsvFacts.reader_writerow | reflexivity].
Qed.

Lemma four_field_row_witness :
  header plain_text = ["type"; "sender"; "content"; "extra"]
  /\ xml_seen (snd (save_message_to_csv XmlLite.fromstring sample_config plain_text
                      sample_world)) = []
  /\ exists w' f,
       save_message_to_csv XmlLite.fromstring sample_config plain_text sample_world
         = (Ok tt, w')
       /\ files w' !! "./Team A/20240305/messages_2024030514.csv" = Some f
       /\ Csv.reader (text f) =
          Some [["type"; "sender"; "content"; "extra"];
                ["1"; "wxid_a"; "hello, world"; "ext"]].
Proof.
  assert (Hty : type plain_text ∈ accepted_types sample_config)
    by (apply (bool_decide_unpack _); vm_compute; exact I).
  assert (Hroom : chatroom_id_to_name sample_config !! roomid plain_text = Some "Team A")
    by (vm_compute; reflexivity).
  assert (Hshape : type plain_text <> 49 \/ is_group plain_text = false)
    by (left; discriminate).
  destruct (four_field_row XmlLite.fromstring sample_config plain_text sample_world
              "Team A" Hty Hroom Hshape) as (Hh & Hx & Hrun).
  split; [exact Hh|]. split; [exact Hx|].
  destruct Hrun as (w' & f & Hs & Hf & Ht & _).
  - intros k. reflexivity.
  - reflexivity.
  - exists 20. reflexivity.
  - exists w', f. split; [exact Hs|]. split; [exact Hf|].
    rewrite Ht. vm_compute. reflexivity.
Defined.

(** C6: for an eligible message the clock is read once, and both the
    directory and the file come from that one reading, whatever the
    clock says later: the directory is [./room/YYYYMMDD/] and the
    file [messages_YYYYMMDDHH.csv] in it, with the date on eight
    digits and the hour on two; after a run with nothing failing the
    directory is there and the row went to that file and to no other. *)
Theorem paths_from_one_reading (fromstring : string -> exn + ET.Element)
    (config : Config) (message : Msg) (w : World) (room : string)
    (tc : option string) :
  type message ∈ accepted_types config ->
  chatroom_id_to_name config !! roomid message = Some room ->
  wall_clock (clock w (ticks w)) ->
  calm w -> file_write_mode config = "a" -> is_Some (level_of config) ->
  title_step fromstring message = Ok tc ->
  let t0 := clock w (ticks w) in
  folder_path room t0 = "./" +:+ room +:+ "/" +:+ YYYYMMDD t0 +:+ "/"
  /\ file_name (folder_path room t0) t0
     = folder_path room t0 +:+ "messages_" +:+ YYYYMMDD t0 +:+ HH t0 +:+ ".csv"
  /\ String.length (YYYYMMDD t0) = 8%nat
  /\ String.length (HH t0) = 2%nat
  /\ exists w',
       save_message_to_csv fromstring config message w = (Ok tt, w')
       /\ exists_in w' (folder_path room t0) = true
       /\ is_Some (files w' !! file_name (folder_path room t0) t0)
       /\ forall p, p <> file_name (folder_path room t0) t0 ->
                    files w' !! p = files w !! p.
Proof.
  intros Hty Hroom Hwall Hc Hm [lvl Hlvl] Htc t0.
  assert (Hy : 1000 <= year t0 <= 9999)
    by (destruct Hwall as [(Hy & _) Hy']; fold t0 in Hy, Hy'; lia).
  assert (Hymd : strftime "%Y%m%d" t0 = YYYYMMDD t0).
  { rewrite StampFacts.strftime_Ymd. unfold YYYYMMDD.
    now rewrite StampFacts.pad0_year. }
  split; [unfold folder_path; now rewrite Hymd|].
  split.
  { unfold file_name. rewrite StampFacts.strftime_YmdH.
    rewrite StampFacts.pad0_year by exact Hy.
    unfold YYYYMMDD, HH. now rewrite !StrFacts.append_assoc. }
  split; [apply StampFacts.YYYYMMDD_length, Hwall|].
  split.
  { apply StampFacts.pad0_2_length.
    destruct Hwall as [(_ & _ & _ & Hh & _) _]. fold t0 in Hh. lia. }
  destruct (PipelineFacts.save_body_calm fromstring config message w room lvl tc
              Hty Hroom Hc Hm Hlvl Htc) as (w' & Hrun & Hf & Hex & _).
  exists w'.
  split; [unfold save_message_to_csv, try_except; now rewrite Hrun|].
  split; [exact Hex|].
  split; [rewrite Hf, lookup_insert_eq; eauto|].
  intros p Hp. rewrite Hf. now rewrite lookup_insert_ne.
Qed.

Lemma paths_from_one_reading_witness :
  folder_path "Team A" sample_time = "./Team A/20240305/"
  /\ file_name (folder_path "Team A" sample_time) sample_time
     = "./Team A/20240305/messages_2024030514.csv"
  /\ exists w',
       save_message_to_csv XmlLite.fromstring sample_config article sample_world
         = (Ok tt, w')
       /\ exists_in w' "./Team A/20240305/" = true
       /\ is_Some (files w' !! "./Team A/20240305/messages_2024030514.csv").
Proof.
  assert (Hty : type article ∈ accepted_types sample_config)
    by (apply (bool_decide_unpack _); vm_compute; exact I).
  assert (Hroom : chatroom_id_to_name sample_config !! roomid article = Some "Team A")
    by (vm_compute; reflexivity).
  assert (Hwall : wall_clock (clock sample_world (ticks sample_world)))
    by (unfold wall_clock, valid_datetime; simpl; lia).
  assert (Hc : calm sample_world) by (intros k; reflexivity).
  assert (Hlvl : is_Some (level_of sample_config)) by (exists 20; reflexivity).
  assert (Htc : title_step XmlLite.fromstring article = Ok (Some "Hello"))
    by (vm_compute; reflexivity).
  destruct (paths_from_one_reading XmlLite.fromstring sample_config article sample_world
              "Team A" (Some "Hello") Hty Hroom Hwall Hc eq_refl Hlvl Htc)
    as (Hfp & Hfn & _ & _ & w' & Hrun & Hex & Hfile & _).
  split; [vm_compute; reflexivity|].
  split; [vm_compute; reflexivity|].
  exists w'. split; [exact Hrun|]. split; [exact Hex | exact Hfile].
Defined.

(** * Further properties *)

(** ** Relations kept by every step *)

Module Preserve.

Lemma bind_assoc {A B C} (m : IO A) (k : A -> IO B) (h : B -> IO C) (w : World) :
  ((m ≫= k) ≫= h) w = (m ≫= fun a => k a ≫= h) w.
Proof.
  unfold mbind, IO_bind. destruct (m w) as [[a|e] w1]; reflexivity.
Qed.

Section Rel.

Variable R : World -> World -> Prop.
Hypothesis R_refl : forall w, R w w.
Hypothesis R_trans : forall a b c, R a b -> R b c -> R a c.

Lemma preserves_mret {A} (a : A) : preserves R (mret a).
Proof. intros w. apply R_refl. Qed.

Lemma preserves_raise {A} (e : exn) : preserves R (raise (A := A) e).
Proof. intros w. apply R_refl. Qed.

(** The continuation need only behave on what [m] returns. *)
Lemma preserves_bind_from {A B} (m : IO A) (k : A -> IO B) :
  preserves R m ->
  (forall w a w', m w = (Ok a, w') -> R w' (snd (k a w'))) ->
  preserves R (m ≫= k).
Proof.
  intros Hm Hk w. rewrite IOFacts.bind_unfold.
  specialize (Hm w). destruct (m w) as [[a|e] w1] eqn:E; simpl in Hm.
  - eapply R_trans; [exact Hm | eapply Hk; exact E].
  - exact Hm.
Qed.

Lemma preserves_bind {A B} (m : IO A) (k : A -> IO B) :
  preserves R m -> (forall a, preserves R (k a)) -> preserves R (m ≫= k).
Proof.
  intros Hm Hk. apply preserves_bind_from; [exact Hm|].
  intros w a w' _. apply Hk.
Qed.

Lemma preserves_try {A} (m : IO A) (h : exn -> IO A) :
  preserves R m -> (forall e, preserves R (h e)) -> preserves R (try_except m h).
Proof.
  intros Hm Hh w. unfold try_except.
  specialize (Hm w). destruct (m w) as [[a|e] w1]; simpl in *.
  - exact Hm.
  - eapply R_trans; [exact Hm | apply Hh].
Qed.

(** A relation that only looks at directories, files and log holds
    across the steps that leave them alone. *)
Hypothesis R_quiet : forall w w',
  dirs w' = dirs w -> files w' = files w -> log_records w' = log_records w -> R w w'.

Lemma preserves_attempt : preserves R attempt.
Proof.
  intros w. unfold attempt. destruct (faults w (ops w)); now apply R_quiet.
Qed.

Lemma preserves_datetime_now : preserves R datetime_now.
Proof. intros w. now apply R_quiet. Qed.

Lemma preserves_os_path_exists (p : string) : preserves R (os_path_exists p).
Proof. intros w. now apply R_quiet. Qed.

Lemma preserves_tell (file : TextFile) : preserves R (tell file).
Proof. intros w. now apply R_quiet. Qed.

Lemma preserves_print (line : string) : preserves R (print line).
Proof.
  apply preserves_bind; [apply preserves_attempt|].
  intros _ w. now apply R_quiet.
Qed.

Lemma preserves_parse_xml_content (fromstring : string -> exn + ET.Element)
    (content : string) :
  preserves R (parse_xml_content fromstring content).
Proof. intros w. rewrite parse_xml_content_run. now apply R_quiet. Qed.

(** The steps that do change directories or files, for one target. *)
Variable config : Config.
Variables fn fp : string.
Hypothesis R_mkdirs : preserves R (mkdirs fp).
Hypothesis R_open_file :
  preserves R (open_file fn (file_write_mode config) (file_encoding config)).
Hypothesis R_append_text : forall w0 file w1 s,
  open_file fn (file_write_mode config) (file_encoding config) w0 = (Ok file, w1) ->
  f_writable file = true ->
  preserves R (append_text file s).

Lemma open_from_open_file (w : World) (file : TextFile) (w' : World) :
  open_ fn (file_write_mode config) (file_encoding config) w = (Ok file, w') ->
  exists w0,
    open_file fn (file_write_mode config) (file_encoding config) w0 = (Ok file, w').
Proof.
  unfold open_. rewrite IOFacts.bind_unfold. unfold attempt.
  destruct (faults w (ops w)); [discriminate|]. eauto.
Qed.

Lemma preserves_write_to_csv (h d : list string) :
  preserves R (write_to_csv config fn h d).
Proof.
  unfold write_to_csv.
  apply preserves_bind_from.
  { unfold open_. apply preserves_bind; [apply preserves_attempt|].
    intros _. apply R_open_file. }
  intros w file w' Hopen.
  destruct (open_from_open_file w file w' Hopen) as [w0 Hof].
  assert (Hwrite : forall s, preserves R (write file s)).
  { intros s. unfold write. destruct (f_writable file) eqn:Hw.
    - apply preserves_bind; [apply preserves_attempt|].
      intros _. now apply (R_append_text w0 file w').
    - apply preserves_raise. }
  assert (Hrest : preserves R
            (pos ← tell file;
             (if (pos =? 0)%nat then writer_writerow file h else mret tt);;
             writer_writerow file d)).
  { apply preserves_bind; [apply preserves_tell|]. intros pos.
    apply preserves_bind; [|intros _; apply Hwrite].
    destruct (pos =? 0)%nat; [apply Hwrite | apply preserves_mret]. }
  apply Hrest.
Qed.

Lemma preserves_store_at (fromstring : string -> exn + ET.Element)
    (message : Msg) (room : string) (t : datetime) :
  fp = folder_path room t -> fn = file_name fp t ->
  preserves R (store_at fromstring config message room t).
Proof.
  intros Hfp Hfn. unfold store_at. rewrite <- Hfp, <- Hfn.
  apply preserves_bind; [apply preserves_os_path_exists|]. intros there.
  apply preserves_bind.
  { destruct (negb there); [|apply preserves_mret].
    unfold os_makedirs. apply preserves_bind; [apply preserves_attempt|].
    intros _. apply R_mkdirs. }
  intros _. apply preserves_bind.
  { destruct (wants_title message);
      [apply preserves_parse_xml_content | apply preserves_mret]. }
  intros tc. apply preserves_write_to_csv.
Qed.

End Rel.

End Preserve.

(** ** The run of a message, step by step *)

Module RunFacts.
Import IOFacts.

Section WithProgram.
Variable fromstring : string -> exn + ET.Element.
Variable config : Config.

(** The body of the [try] is the clock reading, then [store_at], then
    the final [log_and_print]. *)
Lemma save_body_split (message : Msg) (w : World) :
  ineligible config message = false ->
  save_body fromstring config message w =
  (store_at fromstring config message
     (default "" (chatroom_id_to_name config !! roomid message))
     (clock w (ticks w))
   ≫= fun _ =>
     log_and_print config "[INFO] Message saved"
       (default "" (chatroom_id_to_name config !! roomid message)) message)
    (set_ticks w (S (ticks w))).
Proof.
  intros Hel. unfold save_body, store_at. rewrite Hel.
  rewrite bind_unfold. simpl.
  rewrite !Preserve.bind_assoc.
  rewrite (bind_unfold (os_path_exists _)). symmetry.
  rewrite (bind_unfold (os_path_exists _)). simpl.
  rewrite !Preserve.bind_assoc.
  match goal with
  | |- (?m ≫= _) ?w1 = _ =>
      rewrite !(bind_unfold m); destruct (m w1) as [[[]|e] w2]; [|reflexivity]
  end.
  rewrite !Preserve.bind_assoc.
  match goal with
  | |- (?m ≫= _) ?w1 = _ =>
      rewrite !(bind_unfold m); destruct (m w1) as [[tc|e] w3]; reflexivity
  end.
Qed.

(** [log_and_print] leaves directories and files alone, whatever it
    does. *)
Lemma log_and_print_fs (msg room : string) (message : Msg) (w : World) :
  dirs (snd (log_and_print config msg room message w)) = dirs w
  /\ files (snd (log_and_print config msg room message w)) = files w.
Proof.
  unfold log_and_print, getattr_logging, logging_log, print, attempt, stdout_write,
    mbind, IO_bind, mret, IO_ret, raise, datetime_now.
  destruct (logging_attr (upper (log_level config))) as [[z|]|]; simpl;
    try (split; reflexivity).
  destruct (Str.contains "Message saved" msg); [|split; reflexivity].
  simpl. destruct (faults w (ops w)); split; reflexivity.
Qed.

Lemma save_handler_fs (message : Msg) (e : exn) (w : World) :
  dirs (snd (save_handler config message e w)) = dirs w
  /\ files (snd (save_handler config message e w)) = files w.
Proof.
  unfold save_handler. destruct (exn_cls e); apply log_and_print_fs.
Qed.

(** When [config.log_level] names no level, [log_and_print] raises
    before it logs or prints. *)
Lemma log_and_print_raises (msg room : string) (message : Msg) (w : World) :
  level_of config = None ->
  log_and_print config msg room message w = (Raise (level_error config), w).
Proof.
  unfold level_of, level_error, log_and_print, getattr_logging. intros H.
  destruct (logging_attr (upper (log_level config))) as [[z|]|];
    [discriminate | reflexivity | reflexivity].
Qed.

(** A relation on directories and files that [store_at] keeps is kept
    by the whole of [save_message_to_csv]. *)
Lemma save_relates (R : World -> World -> Prop) (message : Msg) (w : World) :
  (forall w0, R w0 w0) ->
  (forall a b c, R a b -> R b c -> R a c) ->
  (forall w0 w', dirs w' = dirs w0 -> files w' = files w0 -> R w0 w') ->
  (forall w1,
      R w1 (snd (store_at fromstring config message
                   (default "" (chatroom_id_to_name config !! roomid message))
                   (clock w (ticks w)) w1))) ->
  R w (snd (save_message_to_csv fromstring config message w)).
Proof.
  intros Hrefl Htrans Hfs Hstore.
  unfold save_message_to_csv, try_except.
  destruct (ineligible config message) eqn:Hel.
  - unfold save_body. rewrite Hel. apply Hrefl.
  - rewrite (save_body_split message w Hel), bind_unfold.
    specialize (Hstore (set_ticks w (S (ticks w)))).
    assert (H1 : R w (set_ticks w (S (ticks w)))) by (now apply Hfs).
    destruct (store_at _ _ _ _ _ _) as [[[]|e] w3]; simpl in Hstore.
    + set (room := default "" _).
      pose proof (log_and_print_fs "[INFO] Message saved" room message w3) as [Hd Hf].
      destruct (log_and_print config "[INFO] Message saved" room message w3)
        as [[[]|e] w4]; simpl in Hd, Hf.
      * simpl. eapply Htrans; [exact H1|]. eapply Htrans; [exact Hstore|].
        now apply Hfs.
      * pose proof (save_handler_fs message e w4) as [Hd' Hf'].
        eapply Htrans; [exact H1|]. eapply Htrans; [exact Hstore|].
        eapply Htrans; [apply Hfs; [exact Hd | exact Hf]|].
        now apply Hfs.
    + pose proof (save_handler_fs message e w3) as [Hd' Hf'].
      eapply Htrans; [exact H1|]. eapply Htrans; [exact Hstore|].
      now apply Hfs.
Qed.

(** [store_at] with nothing failing, in append mode. *)
Lemma store_at_calm (message : Msg) (room : string) (t : datetime) (w : World)
    (tc : option string) :
  calm w ->
  file_write_mode config = "a" ->
  title_step fromstring message = Ok tc ->
  let fp := folder_path room t in
  let fn := file_name fp t in
  exists w',
    store_at fromstring config message room t w = (Ok tt, w')
    /\ files w' =
       <[fn := appended (file_encoding config) (header message) (data message tc)
                 (default empty_file (files w !! fn))]> (files w)
    /\ exists_in w' fp = true
    /\ faults w' = faults w /\ ticks w' = ticks w /\ clock w' = clock w
    /\ log_records w' = log_records w /\ stdout w' = stdout w.
Proof.
  intros Hc Hm Htc fp fn. unfold store_at. fold fp. fold fn.
  erewrite bind_ok by reflexivity.
  fold (exists_in w fp).
  destruct (PipelineFacts.ensure_folder_calm fromstring fp w Hc)
    as (w1 & Hrun1 & Hex1 & Hf1 & Hfa1 & Ht1 & Hcl1 & Hx1 & Hl1).
  assert (Hso1 : stdout w1 = stdout w).
  { revert Hrun1. destruct (negb (exists_in w fp)).
    - run_io Hc. destruct (bool_decide (fp ∈ dirs w)); intros [= <-]; reflexivity.
    - intros [= <-]. reflexivity. }
  erewrite bind_ok by exact Hrun1.
  erewrite bind_ok
    by (rewrite (PipelineFacts.title_step_run fromstring), Htc; reflexivity).
  set (w2 := if wants_title message
             then set_xml_seen w1 (xml_seen w1 ++ [content message]) else w1).
  assert (Hc2 : calm w2).
  { intros k. unfold w2. destruct (wants_title message); simpl; rewrite Hfa1; apply Hc. }
  destruct (write_to_csv_calm config fn (header message) (data message tc) w2 Hc2 Hm)
    as [n Hw].
  assert (Hw2 : files w2 = files w /\ dirs w2 = dirs w1 /\ faults w2 = faults w
                /\ ticks w2 = ticks w /\ clock w2 = clock w
                /\ log_records w2 = log_records w /\ stdout w2 = stdout w).
  { unfold w2. destruct (wants_title message); simpl; repeat split; assumption. }
  destruct Hw2 as (Hf2 & Hd2 & Hfa2 & Ht2 & Hcl2 & Hl2 & Hso2).
  eexists. split; [exact Hw|]. simpl.
  repeat split; try assumption.
  - now rewrite Hf2.
  - unfold exists_in in *. simpl. rewrite Hd2, Hf2.
    apply orb_true_iff in Hex1 as [H|H]; apply orb_true_iff.
    + now left.
    + right. apply bool_decide_eq_true_1 in H. apply bool_decide_eq_true_2.
      rewrite <- Hf1.
      destruct (decide (fn = fp)) as [->|Hne];
        [rewrite lookup_insert_eq; eauto | now rewrite lookup_insert_ne].
Qed.

End WithProgram.

End RunFacts.

(** ** What a run never does to the file system *)

Module FrameFacts.

Lemma text_prefix_refl (a : string) : text_prefix a a.
Proof. exists "". now rewrite StrFacts.append_nil_r. Qed.

Lemma text_prefix_trans (a b c : string) :
  text_prefix a b -> text_prefix b c -> text_prefix a c.
Proof.
  intros [x ->] [y ->]. exists (x +:+ y). apply StrFacts.append_assoc.
Qed.

Lemma append_only_refl (w : World) : append_only w w.
Proof.
  split; [set_solver|]. intros p f Hf. exists f.
  split; [exact Hf|]. split; [apply text_prefix_refl | auto].
Qed.

Lemma append_only_trans (a b c : World) :
  append_only a b -> append_only b c -> append_only a c.
Proof.
  intros [Hd1 Hf1] [Hd2 Hf2]. split; [set_solver|].
  intros p f Hf. destruct (Hf1 p f Hf) as (f1 & Hb & Hp1 & Hb1).
  destruct (Hf2 p f1 Hb) as (f2 & Hc & Hp2 & Hb2).
  exists f2. split; [exact Hc|].
  split; [eapply text_prefix_trans; eassumption | auto].
Qed.

Lemma append_only_fs (w w' : World) :
  dirs w' = dirs w -> files w' = files w -> append_only w w'.
Proof.
  intros Hd Hf. split; [now rewrite Hd|].
  intros p f Hp. exists f. rewrite Hf.
  split; [exact Hp|]. split; [apply text_prefix_refl | auto].
Qed.

Lemma append_only_mkdirs (path : string) : preserves append_only (mkdirs path).
Proof.
  intros w. unfold mkdirs. destruct (bool_decide (path ∈ dirs w)); simpl.
  - apply append_only_refl.
  - split; [simpl; set_solver|]. intros p f Hp. exists f. simpl.
    split; [exact Hp|]. split; [apply text_prefix_refl | auto].
Qed.

Lemma append_only_open_file (fn enc : string) :
  preserves append_only (open_file fn "a" enc).
Proof.
  intros w. unfold open_file. simpl. split; [simpl; set_solver|].
  intros p f Hp. simpl. exists f.
  split; [|split; [apply text_prefix_refl | auto]].
  destruct (decide (fn = p)) as [->|Hne].
  - now rewrite lookup_insert_eq, Hp.
  - now rewrite lookup_insert_ne.
Qed.

Lemma append_only_append_text (file : TextFile) (s : string) :
  preserves append_only (append_text file s).
Proof.
  intros w. unfold append_text. simpl. split; [simpl; set_solver|].
  intros p f Hp. simpl.
  destruct (decide (f_name file = p)) as [E|Hne].
  - rewrite E, lookup_insert_eq, Hp. simpl. eexists. split; [reflexivity|].
    simpl. split; [now exists s | intros ->; reflexivity].
  - rewrite lookup_insert_ne by exact Hne. exists f.
    split; [exact Hp|]. split; [apply text_prefix_refl | auto].
Qed.

Lemma touches_only_refl (fn fp : string) (w : World) : touches_only fn fp w w.
Proof. split; auto. Qed.

Lemma touches_only_trans (fn fp : string) (a b c : World) :
  touches_only fn fp a b -> touches_only fn fp b c -> touches_only fn fp a c.
Proof.
  intros [Hf1 Hd1] [Hf2 Hd2]. split.
  - intros p Hp. now rewrite Hf2, Hf1.
  - intros d Hd. destruct (Hd2 d Hd) as [H|H]; [apply Hd1, H | now right].
Qed.

Lemma touches_only_fs (fn fp : string) (w w' : World) :
  dirs w' = dirs w -> files w' = files w -> touches_only fn fp w w'.
Proof.
  intros Hd Hf. split; [intros p _; now rewrite Hf | intros d; rewrite Hd; auto].
Qed.

Lemma touches_only_mkdirs (fn fp : string) : preserves (touches_only fn fp) (mkdirs fp).
Proof.
  intros w. unfold mkdirs. destruct (bool_decide (fp ∈ dirs w)); simpl.
  - apply touches_only_refl.
  - split; [reflexivity|]. simpl. intros d Hd.
    apply elem_of_union in Hd as [Hd|Hd];
      [apply elem_of_union in Hd as [Hd|Hd]|].
    + now left.
    + right. left. now apply elem_of_singleton in Hd.
    + right. right. now apply elem_of_list_to_set in Hd.
Qed.

Lemma open_file_handle (fn mode enc : string) (w : World) (file : TextFile) (w' : World) :
  open_file fn mode enc w = (Ok file, w') ->
  f_name file = fn /\ (mode = "r" -> f_writable file = false).
Proof.
  unfold open_file.
  destruct (String.eqb_spec mode "a") as [->|Ha]; [intros [= <- _]; split; [reflexivity | discriminate]|].
  destruct (String.eqb_spec mode "w") as [->|Hw]; [intros [= <- _]; split; [reflexivity | discriminate]|].
  destruct (String.eqb_spec mode "x") as [->|Hx].
  { destruct (files w !! fn); [discriminate|].
    intros [= <- _]; split; [reflexivity | discriminate]. }
  destruct (String.eqb_spec mode "r") as [->|Hr]; [|discriminate].
  destruct (files w !! fn); [|discriminate].
  intros [= <- _]. split; reflexivity.
Qed.

Lemma touches_only_open_file (fn fp mode enc : string) :
  preserves (touches_only fn fp) (open_file fn mode enc).
Proof.
  intros w. unfold open_file.
  repeat (match goal with
          | |- context [if ?b then _ else _] => destruct b
          | |- context [match ?x with Some _ => _ | None => _ end] => destruct x
          end; simpl;
          try apply touches_only_refl;
          try (split; [intros p Hp; simpl; now rewrite lookup_insert_ne | simpl; auto])).
Qed.

Lemma touches_only_append_text (fn fp : string) (file : TextFile) (s : string) :
  f_name file = fn -> preserves (touches_only fn fp) (append_text file s).
Proof.
  intros <- w. unfold append_text. split; simpl; [|auto].
  intros p Hp. now rewrite lookup_insert_ne.
Qed.

Lemma same_files_mkdirs (path : string) : preserves same_files (mkdirs path).
Proof.
  intros w. unfold mkdirs, same_files.
  destruct (bool_decide (path ∈ dirs w)); reflexivity.
Qed.

Lemma same_files_open_file (fn enc : string) : preserves same_files (open_file fn "r" enc).
Proof.
  intros w. unfold open_file, same_files. simpl.
  destruct (files w !! fn); reflexivity.
Qed.

Lemma msg_cb_world (fromstring : string -> exn + ET.Element) (config : Config)
    (message : Msg) (w : World) :
  snd (msg_cb fromstring config message w)
  = snd (save_message_to_csv fromstring config message w).
Proof.
  unfold msg_cb. destruct (save_message_to_csv _ _ _ w) as [[[]|e] w']; reflexivity.
Qed.

End FrameFacts.

(** In append mode no run of [save_message_to_csv] (stored, skipped
    or failed, whatever the parser and the file system do) removes a
    directory or a file, or changes what a file already holds: the
    old text stays at the front of the new one. *)
Theorem append_mode_never_loses (fromstring : string -> exn + ET.Element)
    (config : Config) (message : Msg) (w : World) :
  file_write_mode config = "a" ->
  append_only w (snd (save_message_to_csv fromstring config message w))
  /\ append_only w (snd (msg_cb fromstring config message w)).
Proof.
  intros Hm.
  assert (H : append_only w (snd (save_message_to_csv fromstring config message w))).
  { apply RunFacts.save_relates;
      [apply FrameFacts.append_only_refl | apply FrameFacts.append_only_trans
      | apply FrameFacts.append_only_fs |].
    set (room := default "" (chatroom_id_to_name config !! roomid message)).
    set (fp := folder_path room (clock w (ticks w))).
    apply (Preserve.preserves_store_at append_only FrameFacts.append_only_refl
             FrameFacts.append_only_trans
             (fun w0 w' Hd Hf _ => FrameFacts.append_only_fs w0 w' Hd Hf)
             config (file_name fp (clock w (ticks w))) fp
             (FrameFacts.append_only_mkdirs fp));
      [rewrite Hm; apply FrameFacts.append_only_open_file
      | intros; apply FrameFacts.append_only_append_text
      | reflexivity | reflexivity]. }
  split; [exact H | now rewrite FrameFacts.msg_cb_world].
Qed.

Lemma append_mode_never_loses_witness :
  append_only used_world
    (snd (msg_cb XmlLite.fromstring sample_config article used_world))
  /\ files (snd (msg_cb XmlLite.fromstring sample_config article used_world))
       !! "old.csv" = Some {| bom := true; text := "a,b" +:+ Csv.lineterminator |}.
Proof.
  split.
  - apply (append_mode_never_loses XmlLite.fromstring sample_config article used_world).
    reflexivity.
  - vm_compute. reflexivity.
Defined.

(** Whatever happens, a run of [save_message_to_csv] changes no file
    but the one resolved from the room name and the clock reading, and
    makes no directory but the day's directory and the ones above it. *)
Theorem only_target_touched (fromstring : string -> exn + ET.Element)
    (config : Config) (message : Msg) (w : World) :
  let room := default "" (chatroom_id_to_name config !! roomid message) in
  let fp := folder_path room (clock w (ticks w)) in
  let fn := file_name fp (clock w (ticks w)) in
  touches_only fn fp w (snd (save_message_to_csv fromstring config message w)).
Proof.
  intros room fp fn.
  apply RunFacts.save_relates;
    [apply FrameFacts.touches_only_refl | apply FrameFacts.touches_only_trans
    | apply FrameFacts.touches_only_fs |].
  apply (Preserve.preserves_store_at (touches_only fn fp)
           (FrameFacts.touches_only_refl fn fp) (FrameFacts.touches_only_trans fn fp)
           (fun w0 w' Hd Hf _ => FrameFacts.touches_only_fs fn fp w0 w' Hd Hf)
           config fn fp (FrameFacts.touches_only_mkdirs fn fp));
    [apply FrameFacts.touches_only_open_file | | reflexivity | reflexivity].
  intros w0 file w1 s Hopen _.
  apply FrameFacts.touches_only_append_text.
  apply (FrameFacts.open_file_handle _ _ _ _ _ _ Hopen).
Qed.

(** ** Modes other than append *)

(** With [file_write_mode] set to [w], each call of [write_to_csv]
    that goes through replaces the file: whatever it held, it holds
    the header and the one row afterwards. *)
Theorem truncate_mode_single_row (config : Config) (fn : string)
    (h d : list string) (w : World) :
  calm w ->
  file_write_mode config = "w" ->
  exists w' f,
    write_to_csv config fn h d w = (Ok tt, w')
    /\ files w' !! fn = Some f
    /\ text f = Csv.writerow h +:+ Csv.writerow d
    /\ Csv.reader (text f) = Some [h; d].
Proof.
  intros Hc Hm. unfold write_to_csv. rewrite Hm.
  IOFacts.run_io Hc. IOFacts.run_io Hc.
  eexists _, _. split; [reflexivity|]. simpl.
  rewrite lookup_insert_eq. split; [reflexivity|]. simpl.
  split; [reflexivity|].
  rewrite <- (StrFacts.append_nil_r (Csv.writerow d)).
  apply (CsvFacts.reader_writerows [h; d]).
Qed.

Lemma truncate_mode_single_row_witness :
  exists w' f,
    write_to_csv truncating_config "old.csv" ["k"] ["v"] used_world = (Ok tt, w')
    /\ files w' !! "old.csv" = Some f
    /\ Csv.reader (text f) = Some [["k"]; ["v"]].
Proof.
  destruct (truncate_mode_single_row truncating_config "old.csv" ["k"] ["v"] used_world)
    as (w' & f & Hrun & Hf & _ & Hread).
  - intros k. reflexivity.
  - reflexivity.
  - exists w', f. split; [exact Hrun|]. split; [exact Hf | exact Hread].
Defined.

(** With [file_write_mode] set to [r], [write_to_csv] always raises
    (the file is missing, or it is not writable), and no message ever
    changes a file. *)
Theorem read_mode_stores_nothing (config : Config) :
  file_write_mode config = "r" ->
  (forall fn h d w, exists e, fst (write_to_csv config fn h d w) = Raise e)
  /\ (forall fromstring message w,
        files (snd (msg_cb fromstring config message w)) = files w).
Proof.
  intros Hm. split.
  - intros fn h d w. unfold write_to_csv, open_. rewrite Hm.
    rewrite !IOFacts.bind_unfold. unfold attempt.
    destruct (faults w (ops w)) as [e|]; [eauto|].
    unfold open_file; simpl.
    destruct (files w !! fn); [|eauto].
    rewrite !IOFacts.bind_unfold. simpl. eauto.
  - intros fromstring message w. rewrite FrameFacts.msg_cb_world.
    change (same_files w (snd (save_message_to_csv fromstring config message w))).
    apply RunFacts.save_relates; unfold same_files; try congruence.
    set (room := default "" (chatroom_id_to_name config !! roomid message)).
    set (fp := folder_path room (clock w (ticks w))).
    apply (Preserve.preserves_store_at same_files
             (fun w0 => eq_refl)
             (fun a b c (H1 : files b = files a) (H2 : files c = files b) =>
                eq_trans H2 H1)
             (fun w0 w' _ Hf _ => Hf)
             config (file_name fp (clock w (ticks w))) fp
             (FrameFacts.same_files_mkdirs fp));
      [rewrite Hm; apply FrameFacts.same_files_open_file | | reflexivity | reflexivity].
    intros w0 file w1 s Hopen Hw.
    apply FrameFacts.open_file_handle in Hopen as [_ Hr].
    rewrite Hr in Hw by exact Hm. discriminate.
Qed.

Lemma read_mode_stores_nothing_witness :
  (exists e, fst (write_to_csv reading_config "old.csv" ["k"] ["v"] used_world) = Raise e)
  /\ files (snd (msg_cb XmlLite.fromstring reading_config article used_world))
     = files used_world.
Proof.
  destruct (read_mode_stores_nothing reading_config eq_refl) as [H1 H2].
  split; [apply H1 | apply H2].
Defined.

(** ** What the caller and the log see *)

(** When [config.log_level], a string of ASCII characters, names no
    logging level once in upper case, every eligible message ends in
    the server error 500 carrying the complaint about the level, even
    when the row has been written: with nothing failing, in append
    mode, the row is in the file all the same. *)
Theorem bad_log_level_server_error (fromstring : string -> exn + ET.Element)
    (config : Config) (message : Msg) (w : World) :
  ascii_only (log_level config) = true ->
  level_of config = None ->
  ineligible config message = false ->
  (exists w',
      msg_cb fromstring config message w
      = (HTTPException 500 (exn_str (level_error config)), w'))
  /\ (calm w -> file_write_mode config = "a" ->
      forall tc, title_step fromstring message = Ok tc ->
      let room := default "" (chatroom_id_to_name config !! roomid message) in
      let fn := file_name (folder_path room (clock w (ticks w))) (clock w (ticks w)) in
      files (snd (msg_cb fromstring config message w)) !! fn
      = Some (appended (file_encoding config) (header message) (data message tc)
                (default empty_file (files w !! fn)))).
Proof.
  intros _ Hlvl Hel.
  assert (Hh : forall e w0,
             save_handler config message e w0 = (Raise (level_error config), w0)).
  { intros e w0. unfold save_handler.
    destruct (exn_cls e); apply RunFacts.log_and_print_raises, Hlvl. }
  split.
  - unfold msg_cb, save_message_to_csv, try_except.
    rewrite (RunFacts.save_body_split fromstring config message w Hel).
    rewrite IOFacts.bind_unfold.
    destruct (store_at _ _ _ _ _ _) as [[[]|e] w3].
    + rewrite RunFacts.log_and_print_raises by exact Hlvl.
      rewrite Hh. eauto.
    + rewrite Hh. eauto.
  - intros Hc Hm tc Htc room fn.
    destruct (RunFacts.store_at_calm fromstring config message room (clock w (ticks w))
                (set_ticks w (S (ticks w))) tc) as (w3 & Hrun & Hf & _);
      [intros k; apply Hc | exact Hm | exact Htc |].
    unfold msg_cb, save_message_to_csv, try_except.
    rewrite (RunFacts.save_body_split fromstring config message w Hel).
    rewrite IOFacts.bind_unfold. fold room. rewrite Hrun.
    rewrite RunFacts.log_and_print_raises by exact Hlvl.
    rewrite Hh. simpl. rewrite Hf. apply lookup_insert_eq.
Qed.

Lemma bad_log_level_server_error_witness :
  fst (msg_cb XmlLite.fromstring mislevelled_config article sample_world)
    = HTTPException 500 "module 'logging' has no attribute 'VERBOSE'"
  /\ exists f,
       files (snd (msg_cb XmlLite.fromstring mislevelled_config article sample_world))
         !! "./Team A/20240305/messages_2024030514.csv" = Some f
       /\ Csv.reader (text f) =
          Some [["type"; "sender"; "title"; "content"; "extra"];
                ["49"; "wxid_a"; "Hello"; "ext"]].
Proof.
  destruct (bad_log_level_server_error XmlLite.fromstring mislevelled_config article
              sample_world eq_refl eq_refl eq_refl) as [(w' & Hcb) Hrow].
  split; [rewrite Hcb; reflexivity|].
  eexists. split.
  - apply (Hrow (fun k => eq_refl) eq_refl (Some "Hello")). vm_compute. reflexivity.
  - vm_compute. reflexivity.
Defined.

Lemma same_log_store_at (fromstring : string -> exn + ET.Element) (config : Config)
    (message : Msg) (room : string) (t : datetime) :
  preserves same_log (store_at fromstring config message room t).
Proof.
  apply (Preserve.preserves_store_at same_log
           (fun w0 => eq_refl)
           (fun a b c (H1 : log_records b = log_records a)
                (H2 : log_records c = log_records b) => eq_trans H2 H1)
           (fun w0 w' _ _ Hl => Hl)
           config (file_name (folder_path room t) t) (folder_path room t));
    try reflexivity.
  - intros w. unfold mkdirs, same_log.
    destruct (bool_decide (_ ∈ dirs w)); reflexivity.
  - intros w. unfold open_file, same_log.
    repeat (match goal with
            | |- context [if ?b then _ else _] => destruct b
            | |- context [match ?x with Some _ => _ | None => _ end] => destruct x
            end; try reflexivity).
  - intros w0 file w1 s _ _ w'. reflexivity.
Qed.

Module LogFacts.

Lemma write_ok (file : TextFile) (s : string) (w w' : World) :
  write file s w = (Ok tt, w') ->
  exists f pre, files w' !! f_name file = Some f /\ text f = pre +:+ s.
Proof.
  unfold write. destruct (f_writable file); [|discriminate].
  rewrite IOFacts.bind_unfold. unfold attempt.
  destruct (faults w (ops w)); [discriminate|].
  unfold append_text. intros [= <-]. simpl. rewrite lookup_insert_eq.
  eexists _, _. split; reflexivity.
Qed.

(** A call of [write_to_csv] that returns, in whichever mode, leaves
    the row at the end of the file. *)
Lemma write_to_csv_ok_row (config : Config) (fn : string) (h d : list string)
    (w w' : World) :
  write_to_csv config fn h d w = (Ok tt, w') ->
  exists f pre, files w' !! fn = Some f /\ text f = pre +:+ Csv.writerow d.
Proof.
  unfold write_to_csv. rewrite IOFacts.bind_unfold.
  destruct (open_ fn (file_write_mode config) (file_encoding config) w)
    as [[file|e] w1] eqn:Hopen; [|discriminate].
  assert (Hname : f_name file = fn).
  { unfold open_ in Hopen. rewrite IOFacts.bind_unfold in Hopen. unfold attempt in Hopen.
    destruct (faults w (ops w)); [discriminate|].
    apply (FrameFacts.open_file_handle _ _ _ _ _ _ Hopen). }
  rewrite IOFacts.bind_unfold. unfold tell at 1.
  rewrite IOFacts.bind_unfold.
  destruct ((if (_ =? 0)%nat then writer_writerow file h else mret tt) w1)
    as [[[]|e] w2]; [|discriminate].
  intros Hw. apply write_ok in Hw. now rewrite Hname in Hw.
Qed.

(** When [store_at] returns, the title was set and the row is at the
    end of the target file. *)
Lemma store_at_ok_row (fromstring : string -> exn + ET.Element) (config : Config)
    (message : Msg) (room : string) (t : datetime) (w w' : World) :
  store_at fromstring config message room t w = (Ok tt, w') ->
  exists tc f pre,
    title_step fromstring message = Ok tc
    /\ files w' !! file_name (folder_path room t) t = Some f
    /\ text f = pre +:+ Csv.writerow (data message tc).
Proof.
  unfold store_at. rewrite IOFacts.bind_unfold. unfold os_path_exists at 1.
  rewrite IOFacts.bind_unfold.
  destruct ((if negb _ then os_makedirs _ else mret tt) w) as [[[]|e] w1];
    [|discriminate].
  rewrite IOFacts.bind_unfold, (PipelineFacts.title_step_run fromstring).
  destruct (title_step fromstring message) as [tc|e]; [|discriminate].
  intros Hw. apply write_to_csv_ok_row in Hw as (f & pre & Hf & Ht).
  now exists tc, f, pre.
Qed.

End LogFacts.

(** With a level to log at, the log records an eligible message
    leaves follow from what happened to it.  Stored and printed: the
    one record "[INFO] Message saved", and the row is at the end of
    the target file.  Stored, but the print of the line refused (it is
    inside the [try]): that record, then the record of the [except]
    clause that catches the refusal.  Not stored, the body having
    raised [e]: the one record of the [except] clause that catches
    [e].  In the last two cases the call returns unless the error
    record itself holds "Message saved" and the print it then
    triggers is refused. *)
Theorem log_records_by_outcome (fromstring : string -> exn + ET.Element)
    (config : Config) (message : Msg) (w : World) (lvl : Z) :
  level_of config = Some lvl ->
  ineligible config message = false ->
  let room := default "" (chatroom_id_to_name config !! roomid message) in
  let t0 := clock w (ticks w) in
  let fn := file_name (folder_path room t0) t0 in
  let stored := store_at fromstring config message room t0 (set_ticks w (S (ticks w))) in
  let w3 := snd stored in
  let run := save_message_to_csv fromstring config message w in
  let saved := (lvl, "[INFO] Message saved") in
  (fst stored = Ok tt -> faults w3 (ops w3) = None ->
   fst run = Ok tt /\ log_records (snd run) = log_records w ++ [saved])
  /\ (forall e',
        fst stored = Ok tt -> faults w3 (ops w3) = Some e' ->
        log_records (snd run) = log_records w ++ [saved; (lvl, error_message e')]
        /\ ((Str.contains "Message saved" (error_message e') = true ->
             faults w3 (S (ops w3)) = None) ->
            fst run = Ok tt))
  /\ (forall e,
        fst stored = Raise e ->
        log_records (snd run) = log_records w ++ [(lvl, error_message e)]
        /\ ((Str.contains "Message saved" (error_message e) = true ->
             faults w3 (ops w3) = None) ->
            fst run = Ok tt))
  /\ (fst stored = Ok tt ->
      exists tc f pre,
        title_step fromstring message = Ok tc
        /\ files (snd run) !! fn = Some f
        /\ text f = pre +:+ Csv.writerow (data message tc)).
Proof.
  intros Hlvl Hel room t0 fn stored w3 run saved.
  assert (Hrun : run =
    try_except
      (fun w0 => match stored with
                 | (Ok _, w1) =>
                     log_and_print config "[INFO] Message saved" room message w1
                 | (Raise e, w1) => (Raise e, w1)
                 end)
      (save_handler config message) w).
  { unfold run, save_message_to_csv, try_except.
    rewrite (RunFacts.save_body_split fromstring config message w Hel).
    rewrite IOFacts.bind_unfold. reflexivity. }
  assert (Hs : log_records w3 = log_records w).
  { apply (same_log_store_at fromstring config message room t0
             (set_ticks w (S (ticks w)))). }
  assert (Hcontains : Str.contains "Message saved" "[INFO] Message saved" = true)
    by reflexivity.
  rewrite Hrun. unfold try_except. clear Hrun. unfold w3 in *.
  destruct stored as [[[]|e0] w1] eqn:Hstored; simpl in Hs |- *.
  - split; [|split; [|split]].
    + intros _ Hp.
      destruct (PipelineFacts.log_and_print_ok config "[INFO] Message saved" room message
                  w1 lvl Hlvl (fun _ => Hp)) as (w4 & -> & Hl & _).
      simpl. split; [reflexivity | now rewrite Hl, Hs].
    + intros e' _ Hp.
      destruct (PipelineFacts.log_and_print_refused config "[INFO] Message saved" room
                  message w1 lvl e' Hlvl Hcontains Hp)
        as (w4 & -> & Hl & _ & _ & Ho & Hfa & _).
      rewrite PipelineFacts.save_handler_log_and_print. fold room. split.
      * rewrite PipelineFacts.log_and_print_logs with (lvl := lvl) by exact Hlvl.
        rewrite Hl, Hs, <- app_assoc. reflexivity.
      * intros Hp2.
        destruct (PipelineFacts.log_and_print_ok config (error_message e') room message
                    w4 lvl Hlvl) as (w5 & -> & _); [|reflexivity].
        intros Hc. rewrite Hfa, Ho. apply Hp2, Hc.
    + intros e [=].
    + intros _.
      destruct (LogFacts.store_at_ok_row fromstring config message room t0 _ _ Hstored)
        as (tc & f & pre & Htc & Hf & Ht).
      exists tc, f, pre. split; [exact Htc|]. split; [|exact Ht].
      pose proof (RunFacts.log_and_print_fs config "[INFO] Message saved" room message w1)
        as [_ Hf4].
      destruct (log_and_print config "[INFO] Message saved" room message w1)
        as [[[]|e'] w4]; simpl in Hf4 |- *.
      * now rewrite Hf4.
      * rewrite (proj2 (RunFacts.save_handler_fs config message e' w4)), Hf4. exact Hf.
  - split; [|split; [|split]]; try (intros; discriminate).
    intros e [= <-]. rewrite PipelineFacts.save_handler_log_and_print. fold room. split.
    + rewrite PipelineFacts.log_and_print_logs with (lvl := lvl) by exact Hlvl.
      now rewrite Hs.
    + intros Hp.
      destruct (PipelineFacts.log_and_print_ok config (error_message e0) room message
                  w1 lvl Hlvl Hp) as (w5 & -> & _).
      reflexivity.
Qed.

Lemma log_records_by_outcome_witness :
  log_records (snd (save_message_to_csv XmlLite.fromstring sample_config article
                      sample_world))
    = [(20, "[INFO] Message saved")]
  /\ log_records (snd (save_message_to_csv XmlLite.fromstring sample_config article
                         deaf_world))
     = [(20, "[INFO] Message saved"); (20, "[ERROR] An error occurred: [Errno 32] Broken pipe")]
  /\ log_records (snd (save_message_to_csv XmlLite.fromstring sample_config article
                         refusing_world))
     = [(20, "[ERROR] An error occurred: [Errno 13] Permission denied: './Team A/20240305/'")].
Proof.
  split; [|split].
  - apply (proj1 (log_records_by_outcome XmlLite.fromstring sample_config article
                    sample_world 20 eq_refl eq_refl));
      vm_compute; reflexivity.
  - apply (proj1 (proj2 (log_records_by_outcome XmlLite.fromstring sample_config article
                           deaf_world 20 eq_refl eq_refl))
             (Exn OtherException "[Errno 32] Broken pipe"));
      vm_compute; reflexivity.
  - apply (proj1 (proj2 (proj2 (log_records_by_outcome XmlLite.fromstring sample_config
                                  article refusing_world 20 eq_refl eq_refl)))
             (Exn OtherException "[Errno 13] Permission denied: './Team A/20240305/'"));
      vm_compute; reflexivity.
Defined.

(** ** The row of a shared article *)

Lemma third_field_title_step (fromstring : string -> exn + ET.Element)
    (message : Msg) (third : string) :
  wants_title message = true ->
  third_field (fromstring (content message)) (content message) = Some third ->
  exists tc,
    title_step fromstring message = Ok tc
    /\ data message tc = [str_int (type message); sender message; third; extra message].
Proof.
  intros Hw. unfold title_step, title_result, third_field, data. rewrite Hw.
  destruct (fromstring (content message)) as [e|root].
  - destruct (exn_cls e); try discriminate.
    intros [= <-]. eexists. split; reflexivity.
  - rewrite ETFacts.find_descendant_first.
    destruct (ET.first_named "title" root) as [e|].
    + destruct (ET.text e) as [[|c s]|]; intros [= <-]; eexists; split; reflexivity.
    + intros [= <-]. eexists. split; reflexivity.
Qed.

(** For a shared article in a group that is stored, the third field
    of the row is the title when the first [title] element below the
    root has text, the raw content when that element is empty, the
    literal "无标题" when there is no such element, and the literal
    "XML解析错误" when the payload is not well-formed; the row follows
    the five-name header when the file was empty. *)
Theorem article_row_third_field (fromstring : string -> exn + ET.Element)
    (config : Config) (message : Msg) (w : World) (room third : string) :
  type message ∈ accepted_types config ->
  chatroom_id_to_name config !! roomid message = Some room ->
  type message = 49 -> is_group message = true ->
  calm w -> file_write_mode config = "a" -> is_Some (level_of config) ->
  third_field (fromstring (content message)) (content message) = Some third ->
  let t0 := clock w (ticks w) in
  let fn := file_name (folder_path room t0) t0 in
  let f0 := default empty_file (files w !! fn) in
  exists w' f,
    save_message_to_csv fromstring config message w = (Ok tt, w')
    /\ files w' !! fn = Some f
    /\ text f = text f0
                +:+ (if (size f0 =? 0)%nat
                     then Csv.writerow ["type"; "sender"; "title"; "content"; "extra"]
                     else "")
                +:+ Csv.writerow ["49"; sender message; third; extra message].
Proof.
  intros Hty Hroom H49 Hg Hc Hm [lvl Hlvl] Hthird t0 fn f0.
  assert (Hw : wants_title message = true)
    by (unfold wants_title; rewrite H49, Hg; reflexivity).
  destruct (third_field_title_step fromstring message third Hw Hthird)
    as (tc & Htc & Hdata).
  destruct (PipelineFacts.save_body_calm fromstring config message w room lvl tc
              Hty Hroom Hc Hm Hlvl Htc) as (w' & Hrun & Hf & _).
  exists w', (appended (file_encoding config) (header message) (data message tc) f0).
  split; [unfold save_message_to_csv, try_except; now rewrite Hrun|].
  split; [rewrite Hf; apply lookup_insert_eq|].
  unfold appended; simpl. rewrite Hdata. unfold header. rewrite Hw, H49. reflexivity.
Qed.

Lemma article_row_third_field_witness :
  (exists w' f,
      save_message_to_csv XmlLite.fromstring sample_config untitled_article sample_world
        = (Ok tt, w')
      /\ files w' !! "./Team A/20240305/messages_2024030514.csv" = Some f
      /\ Csv.reader (text f) =
         Some [["type"; "sender"; "title"; "content"; "extra"];
               ["49"; "wxid_a"; "<msg><title></title></msg>"; "ext"]])
  /\ (exists w' f,
        save_message_to_csv XmlLite.fromstring sample_config broken_article sample_world
          = (Ok tt, w')
        /\ files w' !! "./Team A/20240305/messages_2024030514.csv" = Some f
        /\ Csv.reader (text f) =
           Some [["type"; "sender"; "title"; "content"; "extra"];
                 ["49"; "wxid_a"; "XML解析错误"; "ext"]]).
Proof.
  assert (Hty : 49 ∈ accepted_types sample_config)
    by (apply (bool_decide_unpack _); vm_compute; exact I).
  assert (Hroom : chatroom_id_to_name sample_config !! "123@chatroom" = Some "Team A")
    by (vm_compute; reflexivity).
  assert (Hc : calm sample_world) by (intros k; reflexivity).
  assert (Hlvl : is_Some (level_of sample_config)) by (exists 20; reflexivity).
  split.
  - destruct (article_row_third_field XmlLite.fromstring sample_config untitled_article
                sample_world "Team A" "<msg><title></title></msg>"
                Hty Hroom eq_refl eq_refl Hc eq_refl Hlvl)
      as (w' & f & Hrun & Hf & Ht); [vm_compute; reflexivity|].
    exists w', f. split; [exact Hrun|]. split; [exact Hf|].
    rewrite Ht. vm_compute. reflexivity.
  - destruct (article_row_third_field XmlLite.fromstring sample_config broken_article
                sample_world "Team A" "XML解析错误"
                Hty Hroom eq_refl eq_refl Hc eq_refl Hlvl)
      as (w' & f & Hrun & Hf & Ht); [vm_compute; reflexivity|].
    exists w', f. split; [exact Hrun|]. split; [exact Hf|].
    rewrite Ht. vm_compute. reflexivity.
Defined.

(** The title is extracted after the directory is made and before the
    file is opened: when the parser raises something other than
    [ParseError] for a shared article, the day's directory is there
    but no file is created or changed; the error is logged and the
    call returns. *)
Theorem parser_failure_leaves_folder_only (fromstring : string -> exn + ET.Element)
    (config : Config) (message : Msg) (w : World) (room : string) (e : exn) (lvl : Z) :
  type message ∈ accepted_types config ->
  chatroom_id_to_name config !! roomid message = Some room ->
  type message = 49 -> is_group message = true ->
  fromstring (content message) = inl e -> exn_cls e <> ParseError ->
  calm w -> level_of config = Some lvl ->
  exists w',
    save_message_to_csv fromstring config message w = (Ok tt, w')
    /\ files w' = files w
    /\ exists_in w' (folder_path room (clock w (ticks w))) = true
    /\ log_records w' = log_records w ++ [(lvl, error_message e)].
Proof.
  intros Hty Hroom H49 Hg Hparse Hcls Hc Hlvl.
  assert (Hw : wants_title message = true)
    by (unfold wants_title; rewrite H49, Hg; reflexivity).
  assert (Hts : title_step fromstring message = Raise e).
  { unfold title_step, title_result. rewrite Hw, Hparse.
    destruct (exn_cls e); try reflexivity. now destruct Hcls. }
  unfold save_message_to_csv, try_except.
  rewrite (RunFacts.save_body_split fromstring config message w
             (PipelineFacts.eligible_false config message room Hty Hroom)).
  rewrite Hroom. simpl default.
  set (fp := folder_path room (clock w (ticks w))).
  destruct (PipelineFacts.ensure_folder_calm fromstring fp (set_ticks w (S (ticks w))))
    as (w1 & Hrun1 & Hex1 & Hf1 & Hfa1 & Ht1 & Hcl1 & Hx1 & Hl1);
    [intros k; apply Hc|].
  simpl in Hf1, Hl1.
  erewrite IOFacts.bind_raise; cycle 1.
  { unfold store_at. fold fp.
    erewrite IOFacts.bind_ok by reflexivity.
    fold (exists_in (set_ticks w (S (ticks w))) fp).
    erewrite IOFacts.bind_ok by exact Hrun1.
    erewrite IOFacts.bind_raise
      by (rewrite (PipelineFacts.title_step_run fromstring), Hts; reflexivity).
    reflexivity. }
  rewrite Hw.
  destruct (PipelineFacts.save_handler_ok config message e
              (set_xml_seen w1 (xml_seen w1 ++ [content message])) lvl Hlvl)
    as (w2 & Hrun2 & Hl2 & Hf2 & Hd2 & _);
    [intros _; simpl; rewrite Hfa1; apply Hc|].
  exists w2. split; [exact Hrun2|].
  split; [rewrite Hf2; exact Hf1|].
  split; [unfold exists_in in *; rewrite Hd2, Hf2; exact Hex1|].
  rewrite Hl2. simpl. now rewrite Hl1.
Qed.

Lemma parser_failure_leaves_folder_only_witness :
  exists w',
    save_message_to_csv refusing_parser sample_config article sample_world = (Ok tt, w')
    /\ files w' = ∅
    /\ exists_in w' "./Team A/20240305/" = true
    /\ log_records w' =
       [(20, "[ERROR] An error occurred: 'utf-8' codec can't encode: surrogates not allowed")].
Proof.
  assert (Hty : type article ∈ accepted_types sample_config)
    by (apply (bool_decide_unpack _); vm_compute; exact I).
  assert (Hroom : chatroom_id_to_name sample_config !! roomid article = Some "Team A")
    by (vm_compute; reflexivity).
  destruct (parser_failure_leaves_folder_only refusing_parser sample_config article
              sample_world "Team A"
              (Exn OtherException "'utf-8' codec can't encode: surrogates not allowed") 20
              Hty Hroom eq_refl eq_refl eq_refl)
    as (w' & Hrun & Hf & Hex & Hl).
  - discriminate.
  - intros k. reflexivity.
  - reflexivity.
  - exists w'. split; [exact Hrun|]. split; [exact Hf|]. split; [exact Hex | exact Hl].
Defined.

(** ** Two messages in one hour *)

Module HourFacts.

Lemma log_saved_calm (config : Config) (room : string) (message : Msg)
    (w : World) (lvl : Z) :
  level_of config = Some lvl ->
  faults w (ops w) = None ->
  exists w',
    log_and_print config "[INFO] Message saved" room message w = (Ok tt, w')
    /\ files w' = files w /\ faults w' = faults w /\ clock w' = clock w
    /\ ticks w' = S (ticks w).
Proof.
  unfold level_of, log_and_print, getattr_logging. intros H Hp.
  destruct (logging_attr (upper (log_level config))) as [[z|]|]; try discriminate.
  change (Str.contains "Message saved" "[INFO] Message saved") with true.
  IOFacts.run_io Hp.
  eexists. split; [reflexivity|]. repeat split; reflexivity.
Qed.

(** A stored message, with what the next one will find. *)
Lemma save_calm_next (fromstring : string -> exn + ET.Element) (config : Config)
    (message : Msg) (w : World) (room : string) (lvl : Z) (tc : option string) :
  type message ∈ accepted_types config ->
  chatroom_id_to_name config !! roomid message = Some room ->
  calm w -> file_write_mode config = "a" -> level_of config = Some lvl ->
  title_step fromstring message = Ok tc ->
  let t0 := clock w (ticks w) in
  let fn := file_name (folder_path room t0) t0 in
  exists w',
    save_message_to_csv fromstring config message w = (Ok tt, w')
    /\ files w' =
       <[fn := appended (file_encoding config) (header message) (data message tc)
                 (default empty_file (files w !! fn))]> (files w)
    /\ faults w' = faults w /\ clock w' = clock w /\ ticks w' = S (S (ticks w)).
Proof.
  intros Hty Hroom Hc Hm Hlvl Htc t0 fn.
  unfold save_message_to_csv, try_except.
  rewrite (RunFacts.save_body_split fromstring config message w
             (PipelineFacts.eligible_false config message room Hty Hroom)).
  rewrite Hroom. simpl default.
  destruct (RunFacts.store_at_calm fromstring config message room t0
              (set_ticks w (S (ticks w))) tc)
    as (w3 & Hrun & Hf & _ & Hfa & Ht & Hcl & _);
    [intros k; apply Hc | exact Hm | exact Htc |].
  simpl in Hf, Hfa, Ht, Hcl.
  erewrite IOFacts.bind_ok by exact Hrun.
  destruct (log_saved_calm config room message w3 lvl Hlvl)
    as (w4 & Hrun4 & Hf4 & Hfa4 & Hcl4 & Ht4);
    [rewrite Hfa; apply Hc|].
  rewrite Hrun4. exists w4. split; [reflexivity|].
  split; [now rewrite Hf4, Hf|].
  split; [now rewrite Hfa4|]. split; [now rewrite Hcl4|]. now rewrite Ht4, Ht.
Qed.

(** The paths depend on the reading only through year, month, day
    and hour. *)
Lemma same_stamp_same_file (room : string) (t1 t2 : datetime) :
  year t2 = year t1 -> month t2 = month t1 -> day t2 = day t1 -> hour t2 = hour t1 ->
  file_name (folder_path room t2) t2 = file_name (folder_path room t1) t1.
Proof.
  intros Hy Hmo Hd Hh. unfold file_name, folder_path.
  rewrite !StampFacts.strftime_Ymd, !StampFacts.strftime_YmdH.
  now rewrite Hy, Hmo, Hd, Hh.
Qed.

End HourFacts.

(** Two messages of one room stored one after the other within the
    same hour go to the same file, and the second adds its row only:
    the header at the top is the one of the first message's shape,
    also when the second message has the other shape. *)
Theorem same_hour_single_header (fromstring : string -> exn + ET.Element)
    (config : Config) (m1 m2 : Msg) (w : World) (room : string)
    (tc1 tc2 : option string) :
  type m1 ∈ accepted_types config -> type m2 ∈ accepted_types config ->
  chatroom_id_to_name config !! roomid m1 = Some room ->
  chatroom_id_to_name config !! roomid m2 = Some room ->
  calm w -> file_write_mode config = "a" -> is_Some (level_of config) ->
  title_step fromstring m1 = Ok tc1 -> title_step fromstring m2 = Ok tc2 ->
  let t1 := clock w (ticks w) in
  let t2 := clock w (S (S (ticks w))) in
  year t2 = year t1 -> month t2 = month t1 -> day t2 = day t1 -> hour t2 = hour t1 ->
  let fn := file_name (folder_path room t1) t1 in
  let f0 := default empty_file (files w !! fn) in
  exists w1 w2 f,
    save_message_to_csv fromstring config m1 w = (Ok tt, w1)
    /\ save_message_to_csv fromstring config m2 w1 = (Ok tt, w2)
    /\ files w2 !! fn = Some f
    /\ text f = text f0
                +:+ (if (size f0 =? 0)%nat then Csv.writerow (header m1) else "")
                +:+ Csv.writerow (data m1 tc1)
                +:+ Csv.writerow (data m2 tc2).
Proof.
  intros Hty1 Hty2 Hr1 Hr2 Hc Hm [lvl Hlvl] Htc1 Htc2 t1 t2 Hy Hmo Hd Hh fn f0.
  destruct (HourFacts.save_calm_next fromstring config m1 w room lvl tc1
              Hty1 Hr1 Hc Hm Hlvl Htc1) as (w1 & Hrun1 & Hf1 & Hfa1 & Hcl1 & Ht1).
  fold t1 in Hf1. fold fn in Hf1. fold f0 in Hf1.
  assert (Hc1 : calm w1) by (intros k; rewrite Hfa1; apply Hc).
  destruct (HourFacts.save_calm_next fromstring config m2 w1 room lvl tc2
              Hty2 Hr2 Hc1 Hm Hlvl Htc2) as (w2 & Hrun2 & Hf2 & _).
  rewrite Hcl1, Ht1 in Hf2. fold t2 in Hf2.
  rewrite (HourFacts.same_stamp_same_file room t1 t2 Hy Hmo Hd Hh) in Hf2.
  fold fn in Hf2.
  rewrite Hf1, lookup_insert_eq in Hf2. simpl in Hf2.
  eexists w1, w2, _. split; [exact Hrun1|]. split; [exact Hrun2|].
  split; [rewrite Hf2; apply lookup_insert_eq|].
  rewrite IOFacts.appended_later by apply IOFacts.appended_size.
  unfold appended; simpl. now rewrite !StrFacts.append_assoc.
Qed.

Lemma same_hour_single_header_witness :
  exists w1 w2 f,
    save_message_to_csv XmlLite.fromstring sample_config plain_text sample_world
      = (Ok tt, w1)
    /\ save_message_to_csv XmlLite.fromstring sample_config article w1 = (Ok tt, w2)
    /\ files w2 !! "./Team A/20240305/messages_2024030514.csv" = Some f
    /\ Csv.reader (text f) =
       Some [["type"; "sender"; "content"; "extra"];
             ["1"; "wxid_a"; "hello, world"; "ext"];
             ["49"; "wxid_a"; "Hello"; "ext"]].
Proof.
  assert (Hty1 : type plain_text ∈ accepted_types sample_config)
    by (apply (bool_decide_unpack _); vm_compute; exact I).
  assert (Hty2 : type article ∈ accepted_types sample_config)
    by (apply (bool_decide_unpack _); vm_compute; exact I).
  assert (Hroom : chatroom_id_to_name sample_config !! "123@chatroom" = Some "Team A")
    by (vm_compute; reflexivity).
  assert (Htc2 : title_step XmlLite.fromstring article = Ok (Some "Hello"))
    by (vm_compute; reflexivity).
  destruct (same_hour_single_header XmlLite.fromstring sample_config plain_text article
              sample_world "Team A" (Some "") (Some "Hello") Hty1 Hty2 Hroom Hroom
              (fun k => eq_refl) eq_refl (ex_intro _ 20 eq_refl) eq_refl Htc2
              eq_refl eq_refl eq_refl eq_refl)
    as (w1 & w2 & f & Hrun1 & Hrun2 & Hf & Ht).
  exists w1, w2, f. split; [exact Hrun1|]. split; [exact Hrun2|].
  split; [exact Hf|]. rewrite Ht. vm_compute. reflexivity.
Defined.

(** ** One file per room, day and hour *)

Module InjFacts.

Lemma append_eq_len (a a' b b' : string) :
  String.length a = String.length a' ->
  a +:+ b = a' +:+ b' -> a = a' /\ b = b'.
Proof.
  revert a'. induction a as [|c a IH]; intros [|c' a'] Hl H; try discriminate.
  - now split.
  - simpl in H. injection H as -> H. injection Hl as Hl.
    destruct (IH a' Hl H) as [-> ->]. now split.
Qed.

Lemma append_eq_len_r (a a' b b' : string) :
  String.length b = String.length b' ->
  a +:+ b = a' +:+ b' -> a = a' /\ b = b'.
Proof.
  intros Hl H. apply append_eq_len; [|exact H].
  apply (f_equal String.length) in H.
  rewrite !StrFacts.length_append in H. lia.
Qed.

(** A padded numeral reads back as the number, over a range checked
    value by value. *)
Lemma undecimal_pad0_in (width lo len : nat) :
  forallb (fun n => match undecimal (pad0 width (Z.of_nat n)) with
                    | Some m => m =? Z.of_nat n
                    | None => false
                    end) (seq lo len) = true ->
  forall z : Z, Z.of_nat lo <= z < Z.of_nat (lo + len) ->
  undecimal (pad0 width z) = Some z.
Proof.
  intros H z Hz. rewrite forallb_forall in H.
  specialize (H (Z.to_nat z)). rewrite Z2Nat.id in H by lia.
  destruct (undecimal (pad0 width z)) as [m|].
  - f_equal. apply Z.eqb_eq, H, in_seq. lia.
  - discriminate H. apply in_seq. lia.
Qed.

Lemma pad0_2_inj (a b : Z) :
  0 <= a <= 99 -> 0 <= b <= 99 -> pad0 2 a = pad0 2 b -> a = b.
Proof.
  intros Ha Hb H.
  assert (Hu : forall z, 0 <= z <= 99 -> undecimal (pad0 2 z) = Some z).
  { intros z Hz. apply (undecimal_pad0_in 2 0 100); [vm_compute; reflexivity | lia]. }
  pose proof (Hu a Ha) as H1. rewrite H, (Hu b Hb) in H1. now injection H1.
Qed.

Lemma pad0_year_inj (a b : Z) :
  1000 <= a <= 9999 -> 1000 <= b <= 9999 -> pad0 1 a = pad0 1 b -> a = b.
Proof.
  intros Ha Hb H.
  assert (Hu : forall z, 1000 <= z <= 9999 -> undecimal (pad0 1 z) = Some z).
  { intros z Hz.
    apply (undecimal_pad0_in 1 (Z.to_nat 1000) (Z.to_nat 9000));
      [vm_compute; reflexivity | lia]. }
  pose proof (Hu a Ha) as H1. rewrite H, (Hu b Hb) in H1. now injection H1.
Qed.

Lemma pad0_year_length (y : Z) :
  1000 <= y <= 9999 -> String.length (pad0 1 y) = 4%nat.
Proof.
  intros H. rewrite StampFacts.pad0_year by exact H. unfold pad0.
  rewrite StrFacts.length_append, StampFacts.year_digits by exact H. reflexivity.
Qed.

(** The stamp of date and hour determines year, month, day and hour. *)
Lemma stamp_inj (t1 t2 : datetime) :
  wall_clock t1 -> wall_clock t2 ->
  strftime "%Y%m%d%H" t1 = strftime "%Y%m%d%H" t2 ->
  year t1 = year t2 /\ month t1 = month t2 /\ day t1 = day t2 /\ hour t1 = hour t2.
Proof.
  intros [(Hy1 & Hm1 & Hd1 & Hh1 & _) Hy1'] [(Hy2 & Hm2 & Hd2 & Hh2 & _) Hy2'].
  rewrite !StampFacts.strftime_YmdH. intros H.
  apply append_eq_len in H as [Hy H];
    [|rewrite !pad0_year_length by lia; reflexivity].
  apply append_eq_len in H as [Hmo H];
    [|rewrite !StampFacts.pad0_2_length by lia; reflexivity].
  apply append_eq_len in H as [Hd Hh];
    [|rewrite !StampFacts.pad0_2_length by lia; reflexivity].
  split; [apply pad0_year_inj; [lia | lia | exact Hy]|].
  split; [apply pad0_2_inj; [lia | lia | exact Hmo]|].
  split; apply pad0_2_inj; solve [lia | assumption].
Qed.

Lemma stamp_length (t : datetime) :
  wall_clock t -> String.length (strftime "%Y%m%d%H" t) = 10%nat.
Proof.
  intros [(Hy & Hm & Hd & Hh & _) Hy']. rewrite StampFacts.strftime_YmdH.
  rewrite !StrFacts.length_append, pad0_year_length, !StampFacts.pad0_2_length by lia.
  reflexivity.
Qed.

Lemma day_stamp_length (t : datetime) :
  wall_clock t -> String.length (strftime "%Y%m%d" t) = 8%nat.
Proof.
  intros [(Hy & Hm & Hd & _) Hy']. rewrite StampFacts.strftime_Ymd.
  rewrite !StrFacts.length_append, pad0_year_length, !StampFacts.pad0_2_length by lia.
  reflexivity.
Qed.

(** The stamp of the date determines year, month and day. *)
Lemma day_stamp_inj (t1 t2 : datetime) :
  wall_clock t1 -> wall_clock t2 ->
  strftime "%Y%m%d" t1 = strftime "%Y%m%d" t2 ->
  year t1 = year t2 /\ month t1 = month t2 /\ day t1 = day t2.
Proof.
  intros [(Hy1 & Hm1 & Hd1 & _) Hy1'] [(Hy2 & Hm2 & Hd2 & _) Hy2'].
  rewrite !StampFacts.strftime_Ymd. intros H.
  apply append_eq_len in H as [Hy H];
    [|rewrite !pad0_year_length by lia; reflexivity].
  apply append_eq_len in H as [Hmo Hd];
    [|rewrite !StampFacts.pad0_2_length by lia; reflexivity].
  split; [apply pad0_year_inj; [lia | lia | exact Hy]|].
  split; apply pad0_2_inj; solve [lia | assumption].
Qed.

(** The path as the room name between a fixed start and a tail of
    fixed length. *)
Lemma file_name_shape (room : string) (t : datetime) :
  file_name (folder_path room t) t =
  "./" +:+ room +:+
    ("/" +:+ strftime "%Y%m%d" t +:+ "/messages_" +:+ strftime "%Y%m%d%H" t +:+ ".csv").
Proof.
  unfold file_name, folder_path.
  rewrite !StrFacts.append_assoc. reflexivity.
Qed.

End InjFacts.

(** For one room name and readings of the system clock, the path
    computed for the target file is the same string exactly when the
    two readings agree on year, month, day and hour, and the path of
    the day's directory exactly when they agree on year, month and
    day: within a room, the messages of one hour get one path and
    those of two different hours two different paths. *)
Theorem target_path_per_hour (room : string) (t1 t2 : datetime) :
  wall_clock t1 -> wall_clock t2 ->
  (file_name (folder_path room t1) t1 = file_name (folder_path room t2) t2
   <-> year t1 = year t2 /\ month t1 = month t2
       /\ day t1 = day t2 /\ hour t1 = hour t2)
  /\ (folder_path room t1 = folder_path room t2
      <-> year t1 = year t2 /\ month t1 = month t2 /\ day t1 = day t2).
Proof.
  intros Hw1 Hw2. split; split.
  - rewrite !InjFacts.file_name_shape. intros H.
    apply String.app_inj in H. apply String.app_inj in H.
    apply String.app_inj in H.
    apply InjFacts.append_eq_len in H as [_ H];
      [|rewrite !InjFacts.day_stamp_length by assumption; reflexivity].
    apply String.app_inj in H.
    apply InjFacts.append_eq_len_r in H as [H _]; [|reflexivity].
    now apply InjFacts.stamp_inj.
  - intros (Hy & Hmo & Hd & Hh). symmetry.
    now apply HourFacts.same_stamp_same_file.
  - unfold folder_path. intros H.
    apply String.app_inj in H. apply String.app_inj in H.
    apply String.app_inj in H.
    apply InjFacts.append_eq_len_r in H as [H _]; [|reflexivity].
    now apply InjFacts.day_stamp_inj.
  - intros (Hy & Hmo & Hd). unfold folder_path.
    rewrite !StampFacts.strftime_Ymd. now rewrite Hy, Hmo, Hd.
Qed.

Lemma target_path_per_hour_witness :
  file_name (folder_path "Team A" sample_time) sample_time
    = file_name (folder_path "Team A" sample_time_later) sample_time_later
  /\ file_name (folder_path "Team A" sample_time) sample_time
     <> file_name (folder_path "Team A" sample_time_next_hour) sample_time_next_hour
  /\ folder_path "Team A" sample_time = folder_path "Team A" sample_time_next_hour.
Proof.
  assert (H0 : wall_clock sample_time)
    by (unfold wall_clock, valid_datetime; simpl; lia).
  assert (H1 : wall_clock sample_time_later)
    by (unfold wall_clock, valid_datetime; simpl; lia).
  assert (H2 : wall_clock sample_time_next_hour)
    by (unfold wall_clock, valid_datetime; simpl; lia).
  split; [|split].
  - apply (proj1 (target_path_per_hour "Team A" sample_time sample_time_later H0 H1)).
    repeat split; reflexivity.
  - intros H.
    apply (proj1 (target_path_per_hour "Team A" sample_time sample_time_next_hour H0 H2))
      in H as (_ & _ & _ & Hh).
    discriminate Hh.
  - apply (proj2 (target_path_per_hour "Team A" sample_time sample_time_next_hour H0 H2)).
    repeat split; reflexivity.
Defined.

(** ** [read_group_ids] *)

(** [read_group_ids] returns the empty list when the file is missing,
    and never anything else: when the file is there, [csv.reader]
    raises on the file object before a line is read, whatever the file
    holds, and that exception is not the one the [except] clause
    catches.  It never changes a file or a directory. *)
Theorem read_group_ids_outcomes (file_path : string) (w : World) :
  (faults w (ops w) = None -> files w !! file_path = None ->
   fst (read_group_ids file_path w) = Ok [])
  /\ (faults w (ops w) = None -> is_Some (files w !! file_path) ->
      exists e, fst (read_group_ids file_path w) = Raise e
                /\ exn_cls e = OtherException)
  /\ (forall ids, fst (read_group_ids file_path w) = Ok ids -> ids = [])
  /\ files (snd (read_group_ids file_path w)) = files w
  /\ dirs (snd (read_group_ids file_path w)) = dirs w.
Proof.
  assert (Hrun : read_group_ids file_path w =
    let w1 := set_ops w (S (ops w)) in
    let caught := fun e : exn =>
      match exn_cls e with
      | FileNotFoundError => (Ok [], w1)
      | _ => (Raise e, w1)
      end in
    match faults w (ops w) with
    | Some e => caught e
    | None =>
        match files w !! file_path with
        | None => (Ok [], w1)
        | Some f => (Raise not_iterable, w1)
        end
    end).
  { unfold read_group_ids, try_except, open_, csv_reader_file, attempt, open_file,
      mbind, IO_bind, mret, IO_ret, raise.
    simpl.
    destruct (faults w (ops w)) as [e|]; simpl.
    - destruct (exn_cls e); reflexivity.
    - destruct (files w !! file_path) as [f|] eqn:E; simpl; reflexivity. }
  rewrite Hrun. clear Hrun. simpl.
  split; [intros -> ->; reflexivity|].
  split.
  { intros -> [f ->]. exists not_iterable. split; reflexivity. }
  split.
  { intros ids. destruct (faults w (ops w)) as [e|].
    - destruct (exn_cls e); simpl; congruence.
    - destruct (files w !! file_path); simpl; congruence. }
  destruct (faults w (ops w)) as [e|].
  - destruct (exn_cls e); split; reflexivity.
  - destruct (files w !! file_path) as [f|]; split; reflexivity.
Qed.

Lemma read_group_ids_outcomes_witness :
  fst (read_group_ids "missing.csv" ids_world) = Ok []
  /\ exists e, fst (read_group_ids "groups.csv" ids_world) = Raise e
               /\ exn_cls e = OtherException.
Proof.
  split.
  - apply (proj1 (read_group_ids_outcomes "missing.csv" ids_world)); reflexivity.
  - apply (proj1 (proj2 (read_group_ids_outcomes "groups.csv" ids_world)));
      [reflexivity | eexists; reflexivity].
Defined.
